(** * django-dataclass-field: a shallow embedding of [fields.py]

    The development follows [src/django_dataclass_field/fields.py] and the
    example record type of [src/examples/car_app/models.py].

    - [Py]           the Python values the code handles, exceptions, string
                     and dict primitives;
    - [Json]         the [json.loads] / [json.dumps] services the code calls;
    - [Dataclasses]  field descriptors of a record type and [asdict];
    - [Dacite]       [from_dict], the hydration service;
    - [Django]       the framework members the two field classes inherit;
    - [DataClassFormField], [DataClassField] and the schema functions
                     [_lookup_scalar], [parse_type], [generate_schema]:
                     the code of the repository itself.

    Floating point numbers are left out of the value universe: text whose
    decoding would produce one is answered with [Unmodelled].  The limits
    of the interpreter (recursion depth, the number of digits of an integer
    literal) are not part of the model either. *)

From Stdlib Require Import String Ascii List ZArith Bool Lia Permutation DecimalString.
Import ListNotations.
Local Open Scope list_scope.
Local Open Scope string_scope.

(* ================================================================= *)
(** ** Python values, exceptions and primitives *)

Module Py.

(** Values.  A [str] holds code points below 256.  [JSONString] is Django's
    [str] subclass marking a string obtained by decoding JSON.  A dict keeps
    its insertion order and has string keys.  An instance of a dataclass
    carries the class name and its attributes in declaration order. *)
#[local] Unset Elimination Schemes.
Inductive pyval : Type :=
| PyNone
| PyBool (b : bool)
| PyInt (z : Z)
| PyStr (s : string)
| JSONString (s : string)
| PyList (items : list pyval)
| PyTuple (items : list pyval)
| PyDict (kvs : list (string * pyval))
| PyInstance (cls : string) (attrs : list (string * pyval)).

#[local] Set Elimination Schemes.

(** Induction that reaches inside containers. *)
Section PyvalInd.
Variable P : pyval -> Prop.
Hypothesis HNone : P PyNone.
Hypothesis HBool : forall b, P (PyBool b).
Hypothesis HInt : forall z, P (PyInt z).
Hypothesis HStr : forall s, P (PyStr s).
Hypothesis HJStr : forall s, P (JSONString s).
Hypothesis HList : forall l, Forall P l -> P (PyList l).
Hypothesis HTuple : forall l, Forall P l -> P (PyTuple l).
Hypothesis HDict : forall kvs, Forall (fun kv => P (snd kv)) kvs -> P (PyDict kvs).
Hypothesis HInst : forall c kvs, Forall (fun kv => P (snd kv)) kvs -> P (PyInstance c kvs).

Fixpoint pyval_deep_ind (v : pyval) : P v :=
  let items := fix items (l : list pyval) : Forall P l :=
    match l with
    | [] => Forall_nil _
    | x :: l' => Forall_cons _ (pyval_deep_ind x) (items l')
    end in
  let pairs := fix pairs (l : list (string * pyval)) : Forall (fun kv => P (snd kv)) l :=
    match l with
    | [] => Forall_nil _
    | kv :: l' => Forall_cons _ (pyval_deep_ind (snd kv)) (pairs l')
    end in
  match v with
  | PyNone => HNone
  | PyBool b => HBool b
  | PyInt z => HInt z
  | PyStr s => HStr s
  | JSONString s => HJStr s
  | PyList l => HList l (items l)
  | PyTuple l => HTuple l (items l)
  | PyDict kvs => HDict kvs (pairs kvs)
  | PyInstance c kvs => HInst c kvs (pairs kvs)
  end.
End PyvalInd.

(** Exceptions, by class.  [ValidationError] keeps its message, its code and
    the value stored under [params["value"]]. *)
Inductive exn : Type :=
| ValidationError (message code : string) (value : pyval)
| MissingValueError (field : string)
| WrongTypeError (field : string)
| JSONDecodeError
| KeyError
| TypeError
| ValueError.

(** What a call does: it returns, it raises, or it leaves the modelled
    fragment of Python (floats, code points above 255, non-string keys). *)
Inductive outcome (A : Type) : Type :=
| Return (a : A)
| Raise (e : exn)
| Unmodelled.

Arguments Return {A} a.
Arguments Raise {A} e.
Arguments Unmodelled {A}.

Definition bind {A B} (m : outcome A) (k : A -> outcome B) : outcome B :=
  match m with
  | Return a => k a
  | Raise e => Raise e
  | Unmodelled => Unmodelled
  end.

Section MapM.
Context {A B : Type}.
Variable f : A -> outcome B.

Fixpoint mapM (l : list A) : outcome (list B) :=
match l with
| [] => Return []
| x :: l' =>
    bind (f x) (fun y => bind (mapM l') (fun ys => Return (y :: ys)))
end.
End MapM.

(** *** Dicts *)

Fixpoint dict_get {A} (k : string) (kvs : list (string * A)) : option A :=
  match kvs with
  | [] => None
  | (k', v) :: rest => if String.eqb k k' then Some v else dict_get k rest
  end.

(** [d[k] = v]: an existing key keeps its position. *)
Fixpoint dict_set {A} (k : string) (v : A) (kvs : list (string * A)) : list (string * A) :=
  match kvs with
  | [] => [(k, v)]
  | (k', v') :: rest =>
      if String.eqb k k' then (k, v) :: rest else (k', v') :: dict_set k v rest
  end.

Definition dict_keys {A} (kvs : list (string * A)) : list string := map fst kvs.

Definition dict_has {A} (k : string) (kvs : list (string * A)) : bool :=
  existsb (String.eqb k) (dict_keys kvs).

(** [dict(pairs)]: a later pair replaces the value of an earlier one. *)
Definition dict_of_pairs {A} (pairs : list (string * A)) : list (string * A) :=
  fold_left (fun d kv => dict_set (fst kv) (snd kv) d) pairs [].

(** [d.update(other)] *)
Definition dict_update {A} (d other : list (string * A)) : list (string * A) :=
  fold_left (fun d kv => dict_set (fst kv) (snd kv) d) other d.

Fixpoint distinct (ks : list string) : bool :=
  match ks with
  | [] => true
  | k :: rest => negb (existsb (String.eqb k) rest) && distinct rest
  end.

(** *** Equality ([==]) *)

Section Elementwise.
Variable eq : pyval -> pyval -> bool.

(** Sequences are equal item by item. *)
Fixpoint seq_eq (xs ys : list pyval) {struct xs} : bool :=
  match xs, ys with
  | [], [] => true
  | x :: xs', y :: ys' => eq x y && seq_eq xs' ys'
  | _, _ => false
  end.

(** The generated [__eq__] of a dataclass compares the attribute values in
    order. *)
Fixpoint attrs_eq (xs ys : list (string * pyval)) {struct xs} : bool :=
  match xs, ys with
  | [], [] => true
  | (_, x) :: xs', (_, y) :: ys' => eq x y && attrs_eq xs' ys'
  | _, _ => false
  end.

(** Every item of [xs] is found, with an equal value, in [ys]. *)
Fixpoint items_in (ys xs : list (string * pyval)) {struct xs} : bool :=
  match xs with
  | [] => true
  | (k, x) :: xs' =>
      match dict_get k ys with
      | Some y => eq x y
      | None => false
      end && items_in ys xs'
  end.
End Elementwise.

Fixpoint py_eq (a b : pyval) {struct a} : bool :=
  match a, b with
  | PyNone, PyNone => true
  | PyBool x, PyBool y => Bool.eqb x y
  | PyBool x, PyInt y => Z.eqb (Z.b2z x) y
  | PyInt x, PyBool y => Z.eqb x (Z.b2z y)
  | PyInt x, PyInt y => Z.eqb x y
  | PyStr x, PyStr y | PyStr x, JSONString y
  | JSONString x, PyStr y | JSONString x, JSONString y => String.eqb x y
  | PyList xs, PyList ys => seq_eq py_eq xs ys
  | PyTuple xs, PyTuple ys => seq_eq py_eq xs ys
  | PyDict xs, PyDict ys =>
      Nat.eqb (List.length xs) (List.length ys) && items_in py_eq ys xs
  | PyInstance c xs, PyInstance d ys => String.eqb c d && attrs_eq py_eq xs ys
  | _, _ => false
  end.

(** [x in seq] for a list or tuple. *)
Definition py_in (x : pyval) (seq : list pyval) : bool :=
  existsb (fun e => py_eq e x) seq.

(** *** Strings *)

Definition char_in (c : ascii) (s : string) : bool :=
  existsb (Ascii.eqb c) (list_ascii_of_string s).

Definition startswith (s p : string) : bool := String.prefix p s.

(** [needle in haystack] *)
Fixpoint is_substring (needle haystack : string) : bool :=
  String.prefix needle haystack ||
  match haystack with
  | EmptyString => false
  | String _ rest => is_substring needle rest
  end.

(** [s.split(sep)] for a separator of one character. *)
Fixpoint split (sep : ascii) (s : string) : list string :=
  match s with
  | EmptyString => [EmptyString]
  | String c rest =>
      if Ascii.eqb c sep then EmptyString :: split sep rest
      else match split sep rest with
           | [] => [String c EmptyString]
           | w :: ws => String c w :: ws
           end
  end.

(** [str.isspace] on one code point below 256. *)
Definition isspace (c : ascii) : bool :=
  let n := N_of_ascii c in
  ((9 <=? n) && (n <=? 13) || (28 <=? n) && (n <=? 32) || (n =? 133) || (n =? 160))%N.

Fixpoint lstrip (s : string) : string :=
  match s with
  | EmptyString => EmptyString
  | String c rest => if isspace c then lstrip rest else s
  end.

Fixpoint rstrip (s : string) : string :=
  match s with
  | EmptyString => EmptyString
  | String c rest =>
      match rstrip rest with
      | EmptyString => if isspace c then EmptyString else String c EmptyString
      | r => String c r
      end
  end.

Definition strip (s : string) : string := rstrip (lstrip s).

Fixpoint drop (n : nat) (s : string) : string :=
  match n, s with
  | O, _ => s
  | S n', String _ rest => drop n' rest
  | S _, EmptyString => EmptyString
  end.

Fixpoint drop_last (s : string) : string :=
  match s with
  | EmptyString => EmptyString
  | String c EmptyString => EmptyString
  | String c rest => String c (drop_last rest)
  end.

(** [s[n:-1]] *)
Definition slice_to_last (n : nat) (s : string) : string := drop_last (drop n s).

End Py.
Export Py.

Declare Scope py_scope.
Delimit Scope py_scope with py.
Notation "x <- m ;; k" := (bind m (fun x => k))
  (at level 61, m at next level, right associativity) : py_scope.
Notation "' p <- m ;; k" := (bind m (fun p => k))
  (at level 61, p pattern, m at next level, right associativity) : py_scope.
Local Open Scope py_scope.

(* ================================================================= *)
(** ** The JSON services: [json.loads] and [json.dumps]

    The repository treats both as primitives of the standard library.  They
    are written out here, after the grammar of [json.decoder] and the
    default encoder, so that the code calling them can be run on concrete
    text.  Decoding answers [Unmodelled] on number literals with a fraction
    or an exponent, on [NaN] and the infinities, and on escapes above
    [ÿ]. *)

Module Json.

Definition dquote : ascii := "034"%char.
Definition backslash : ascii := "092"%char.

(** Concrete JSON text is written with apostrophes for the double quotes. *)
Fixpoint text (s : string) : string :=
  match s with
  | EmptyString => EmptyString
  | String c rest => String (if Ascii.eqb c "'" then dquote else c) (text rest)
  end.

(** *** Decoding *)

Definition is_ws (c : ascii) : bool :=
  char_in c (String " " (String "009" (String "010" (String "013" EmptyString)))).

Fixpoint skip_ws (s : string) : string :=
  match s with
  | EmptyString => EmptyString
  | String c rest => if is_ws c then skip_ws rest else s
  end.

Definition is_digit (c : ascii) : bool :=
  let n := N_of_ascii c in ((48 <=? n) && (n <=? 57))%N.

Definition digit_val (c : ascii) : Z := (Z.of_N (N_of_ascii c) - 48)%Z.

Fixpoint scan_digits (acc : Z) (s : string) : Z * string :=
  match s with
  | EmptyString => (acc, s)
  | String c rest =>
      if is_digit c then scan_digits (10 * acc + digit_val c)%Z rest else (acc, s)
  end.

(** The integer part of [NUMBER_RE]: an optional minus sign, then a single
    zero or a digit run that starts with a nonzero digit. *)
Definition unsigned_integer (s : string) : option (Z * string) :=
  match s with
  | EmptyString => None
  | String c r =>
      if Ascii.eqb c "0" then Some (0%Z, r)
      else if is_digit c then Some (scan_digits (digit_val c) r)
      else None
  end.

Definition match_integer (s : string) : option (Z * string) :=
  match s with
  | EmptyString => None
  | String c r =>
      if Ascii.eqb c "-" then
        match unsigned_integer r with
        | Some (n, r') => Some ((- n)%Z, r')
        | None => None
        end
      else unsigned_integer s
  end.

(** The fraction group (a dot and at least one digit) and the exponent
    group (e or E, an optional sign, at least one digit) of [NUMBER_RE]
    match at the head of [s]. *)
Definition has_frac (s : string) : bool :=
  match s with
  | String "." (String c _) => is_digit c
  | _ => false
  end.

Definition has_exp (s : string) : bool :=
  match s with
  | String e (String c rest) =>
      (Ascii.eqb e "e" || Ascii.eqb e "E")
      && (is_digit c
          || (Ascii.eqb c "+" || Ascii.eqb c "-")
             && match rest with
                | String d _ => is_digit d
                | EmptyString => false
                end)
  | _ => false
  end.

Definition hex_val (c : ascii) : option N :=
  let n := N_of_ascii c in
  if is_digit c then Some (n - 48)%N
  else if ((97 <=? n) && (n <=? 102))%N then Some (n - 87)%N
  else if ((65 <=? n) && (n <=? 70))%N then Some (n - 55)%N
  else None.

Definition decode_uXXXX (a b c d : ascii) : option N :=
  match hex_val a, hex_val b, hex_val c, hex_val d with
  | Some x, Some y, Some z, Some w => Some (((x * 16 + y) * 16 + z) * 16 + w)%N
  | _, _, _, _ => None
  end.

(** [BACKSLASH]: the one-letter escapes. *)
Definition unescape (c : ascii) : option ascii :=
  if Ascii.eqb c dquote then Some dquote
  else if Ascii.eqb c backslash then Some backslash
  else if Ascii.eqb c "/" then Some "/"%char
  else if Ascii.eqb c "b" then Some "008"%char
  else if Ascii.eqb c "f" then Some "012"%char
  else if Ascii.eqb c "n" then Some "010"%char
  else if Ascii.eqb c "r" then Some "013"%char
  else if Ascii.eqb c "t" then Some "009"%char
  else None.

(** [scanstring] in strict mode, entered after the opening quote: the
    decoded string and the text after the closing quote. *)
Fixpoint scanstring (s : string) : outcome (string * string) :=
  match s with
  | EmptyString => Raise JSONDecodeError
  | String c rest =>
      if Ascii.eqb c dquote then Return (EmptyString, rest)
      else if Ascii.eqb c backslash then
        match rest with
        | EmptyString => Raise JSONDecodeError
        | String esc rest' =>
            if Ascii.eqb esc "u" then
              match rest' with
              | String h1 (String h2 (String h3 (String h4 rest''))) =>
                  match decode_uXXXX h1 h2 h3 h4 with
                  | None => Raise JSONDecodeError
                  | Some uni =>
                      if (uni <? 256)%N then
                        '(str, r) <- scanstring rest'' ;;
                        Return (String (ascii_of_N uni) str, r)
                      else Unmodelled
                  end
              | _ => Raise JSONDecodeError
              end
            else
              match unescape esc with
              | None => Raise JSONDecodeError
              | Some ch =>
                  '(str, r) <- scanstring rest' ;;
                  Return (String ch str, r)
              end
        end
      else if (N_of_ascii c <? 32)%N then Raise JSONDecodeError
      else
        '(str, r) <- scanstring rest ;;
        Return (String c str, r)
  end.

Section Containers.
(** [scan_once], as the two container parsers receive it. *)
Variable scan : string -> outcome (pyval * string).

(** The loop of [JSONArray], entered at the first character of an item. *)
Fixpoint array_items (fuel : nat) (s : string) : outcome (list pyval * string) :=
  match fuel with
  | O => Unmodelled
  | S fuel' =>
      '(value, r) <- scan s ;;
      match skip_ws r with
      | String c r' =>
          if Ascii.eqb c "]" then Return ([value], r')
          else if Ascii.eqb c "," then
            '(values, r'') <- array_items fuel' (skip_ws r') ;;
            Return (value :: values, r'')
          else Raise JSONDecodeError
      | EmptyString => Raise JSONDecodeError
      end
  end.

Definition JSONArray (fuel : nat) (s : string) : outcome (pyval * string) :=
  match skip_ws s with
  | String "]" r => Return (PyList [], r)
  | s' =>
      '(values, r) <- array_items fuel s' ;;
      Return (PyList values, r)
  end.

(** The loop of [JSONObject], entered after the opening quote of a key. *)
Fixpoint object_pairs (fuel : nat) (s : string) : outcome (list (string * pyval) * string) :=
  match fuel with
  | O => Unmodelled
  | S fuel' =>
      '(key, r) <- scanstring s ;;
      match skip_ws r with
      | String ":" r1 =>
          '(value, r2) <- scan (skip_ws r1) ;;
          match skip_ws r2 with
          | String c r3 =>
              if Ascii.eqb c "}" then Return ([(key, value)], r3)
              else if Ascii.eqb c "," then
                match skip_ws r3 with
                | String q r4 =>
                    if Ascii.eqb q dquote then
                      '(pairs, r5) <- object_pairs fuel' r4 ;;
                      Return ((key, value) :: pairs, r5)
                    else Raise JSONDecodeError
                | EmptyString => Raise JSONDecodeError
                end
              else Raise JSONDecodeError
          | EmptyString => Raise JSONDecodeError
          end
      | _ => Raise JSONDecodeError
      end
  end.

Definition JSONObject (fuel : nat) (s : string) : outcome (pyval * string) :=
  match skip_ws s with
  | String c r =>
      if Ascii.eqb c "}" then Return (PyDict [], r)
      else if Ascii.eqb c dquote then
        '(pairs, r') <- object_pairs fuel r ;;
        Return (PyDict (dict_of_pairs pairs), r')
      else Raise JSONDecodeError
  | EmptyString => Raise JSONDecodeError
  end.
End Containers.

(** [scan_once]: one JSON value at the head of [s].  The fuel bounds the
    nesting depth and the number of items of a container; the length of the
    text is enough. *)
Fixpoint scan_once (fuel : nat) (s : string) : outcome (pyval * string) :=
  match fuel with
  | O => Unmodelled
  | S fuel' =>
      match s with
      | EmptyString => Raise JSONDecodeError
      | String c rest =>
          if Ascii.eqb c dquote then
            '(str, r) <- scanstring rest ;;
            Return (PyStr str, r)
          else if Ascii.eqb c "{" then JSONObject (scan_once fuel') fuel' rest
          else if Ascii.eqb c "[" then JSONArray (scan_once fuel') fuel' rest
          else if startswith s "null" then Return (PyNone, drop 4 s)
          else if startswith s "true" then Return (PyBool true, drop 4 s)
          else if startswith s "false" then Return (PyBool false, drop 5 s)
          else
            match match_integer s with
            | Some (n, r) =>
                if has_frac r || has_exp r then Unmodelled else Return (PyInt n, r)
            | None =>
                if startswith s "NaN" || startswith s "Infinity"
                   || startswith s "-Infinity"
                then Unmodelled
                else Raise JSONDecodeError
            end
      end
  end.

(** Modelled from the spec: the service that parses text to a mapping,
    [json.loads(s)] with the default decoder, which is not under [src/]. *)
Definition loads (s : string) : outcome pyval :=
  '(obj, rest) <- scan_once (S (String.length s)) (skip_ws s) ;;
  match skip_ws rest with
  | EmptyString => Return obj
  | String _ _ => Raise JSONDecodeError
  end.

(** *** Encoding *)

Definition hex_digit (n : N) : ascii :=
  if (n <? 10)%N then ascii_of_N (48 + n) else ascii_of_N (87 + n).

(** [ESCAPE_ASCII] and [ESCAPE_DCT]: what [ensure_ascii] does to one
    character. *)
Definition escape_char (c : ascii) : string :=
  let n := N_of_ascii c in
  if Ascii.eqb c dquote then String backslash (String dquote EmptyString)
  else if Ascii.eqb c backslash then String backslash (String backslash EmptyString)
  else if Ascii.eqb c "010" then String backslash "n"
  else if Ascii.eqb c "013" then String backslash "r"
  else if Ascii.eqb c "009" then String backslash "t"
  else if Ascii.eqb c "008" then String backslash "b"
  else if Ascii.eqb c "012" then String backslash "f"
  else if ((32 <=? n) && (n <=? 126))%N then String c EmptyString
  else String backslash
         (String "u" (String "0" (String "0"
            (String (hex_digit (n / 16)) (String (hex_digit (n mod 16)) EmptyString))))).

Fixpoint escape (s : string) : string :=
  match s with
  | EmptyString => EmptyString
  | String c rest => escape_char c ++ escape rest
  end.

Definition encode_basestring_ascii (s : string) : string :=
  String dquote (escape s ++ String dquote EmptyString).

Definition int_repr (z : Z) : string := NilZero.string_of_int (Z.to_int z).

(** [sorted] on the items of a dict: insertion by key. *)
Fixpoint insert_item {A} (kv : string * A) (l : list (string * A)) : list (string * A) :=
  match l with
  | [] => [kv]
  | kv' :: rest =>
      if String.leb (fst kv) (fst kv') then kv :: l else kv' :: insert_item kv rest
  end.

Definition sort_items {A} (l : list (string * A)) : list (string * A) :=
  fold_right insert_item [] l.

Definition join_items (open_ close_ : string) (items : list string) : string :=
  open_ ++ String.concat ", " items ++ close_.

(** Modelled from the spec: the service that serializes a mapping to text,
    [json.dumps(v, sort_keys=True)] with the default encoder, which is not
    under [src/].  An instance
    of a dataclass is not serializable.  The values of a dict are encoded
    before the items are put in key order; the text is the same. *)
Fixpoint dumps (v : pyval) : outcome string :=
  match v with
  | PyNone => Return "null"
  | PyBool true => Return "true"
  | PyBool false => Return "false"
  | PyInt z => Return (int_repr z)
  | PyStr s | JSONString s => Return (encode_basestring_ascii s)
  | PyList l | PyTuple l =>
      items <- mapM dumps l ;;
      Return (join_items "[" "]" items)
  | PyDict kvs =>
      items <- mapM (fun kv => s <- dumps (snd kv) ;; Return (fst kv, s)) kvs ;;
      Return (join_items "{" "}"
                (map (fun ks => encode_basestring_ascii (fst ks) ++ ": " ++ snd ks)
                     (sort_items items)))
  | PyInstance _ _ => Raise TypeError
  end.

(** [ESCAPE] and [ESCAPE_DCT]: what the encoder does to one character when
    [ensure_ascii] is off. *)
Definition escape_char_unicode (c : ascii) : string :=
  let n := N_of_ascii c in
  if Ascii.eqb c dquote then String backslash (String dquote EmptyString)
  else if Ascii.eqb c backslash then String backslash (String backslash EmptyString)
  else if Ascii.eqb c "010" then String backslash "n"
  else if Ascii.eqb c "013" then String backslash "r"
  else if Ascii.eqb c "009" then String backslash "t"
  else if Ascii.eqb c "008" then String backslash "b"
  else if Ascii.eqb c "012" then String backslash "f"
  else if (n <? 32)%N then
    String backslash
      (String "u" (String "0" (String "0"
         (String (hex_digit (n / 16)) (String (hex_digit (n mod 16)) EmptyString)))))
  else String c EmptyString.

Fixpoint escape_unicode (s : string) : string :=
  match s with
  | EmptyString => EmptyString
  | String c rest => escape_char_unicode c ++ escape_unicode rest
  end.

Definition encode_basestring (s : string) : string :=
  String dquote (escape_unicode s ++ String dquote EmptyString).

Section Encoder.
(** The two options of [json.dumps] the code sets. *)
Variable sort_keys : bool.
Variable ensure_ascii : bool.

Definition encode_str (s : string) : string :=
  if ensure_ascii then encode_basestring_ascii s else encode_basestring s.

(** Modelled from the spec: the service that serializes a mapping to text,
    [json.dumps(v, sort_keys=..., ensure_ascii=...)] with the default
    encoder, which is not under [src/]. *)
Fixpoint dumps_with (v : pyval) : outcome string :=
  match v with
  | PyNone => Return "null"
  | PyBool true => Return "true"
  | PyBool false => Return "false"
  | PyInt z => Return (int_repr z)
  | PyStr s | JSONString s => Return (encode_str s)
  | PyList l | PyTuple l =>
      items <- mapM dumps_with l ;;
      Return (join_items "[" "]" items)
  | PyDict kvs =>
      items <- mapM (fun kv => s <- dumps_with (snd kv) ;; Return (fst kv, s)) kvs ;;
      Return (join_items "{" "}"
                (map (fun ks => encode_str (fst ks) ++ ": " ++ snd ks)
                     (if sort_keys then sort_items items else items)))
  | PyInstance _ _ => Raise TypeError
  end.
End Encoder.

End Json.

(* ================================================================= *)
(** ** Record types: [dataclasses] *)

Module Dataclasses.

(** The builtin classes a field is declared with. *)
Inductive pyclass : Type := c_str | c_int | c_bool | c_dict | c_list.

Definition class_name (c : pyclass) : string :=
  match c with
  | c_str => "str"
  | c_int => "int"
  | c_bool => "bool"
  | c_dict => "dict"
  | c_list => "list"
  end.

(** Type objects: a builtin class, [None], [typing.Optional] of a builtin
    class, or any other type object, of which only the text that [str]
    gives is known. *)
Inductive pytype : Type :=
| TClass (c : pyclass)
| TNone
| TOptional (c : pyclass)
| TOpaque (repr : string).

(** What [Field.type] holds: the annotation as evaluated when the class
    body ran, or, for a postponed annotation, its source text (together with
    the type the text resolves to). *)
Inductive annotation : Type :=
| Evaluated (t : pytype)
| Postponed (source : string) (t : pytype).

Definition hint (a : annotation) : pytype :=
  match a with
  | Evaluated t => t
  | Postponed _ t => t
  end.

(** [str(x)] for what [Field.type] holds. *)
Definition py_str (a : annotation) : string :=
  match a with
  | Postponed source _ => source
  | Evaluated (TClass c) => "<class '" ++ class_name c ++ "'>"
  | Evaluated TNone => "None"
  | Evaluated (TOptional c) => "typing.Optional[" ++ class_name c ++ "]"
  | Evaluated (TOpaque repr) => repr
  end.

(** [dataclasses.Field]; [None] stands for the [MISSING] sentinel, and
    [default_factory] holds the value the factory makes. *)
Record Field : Type := {
  name : string;
  type : annotation;
  default : option pyval;
  default_factory : option pyval;
  init : bool
}.

(** A dataclass: its [__name__] and the fields of [__dataclass_fields__] in
    declaration order. *)
Record DataClass : Type := {
  __name__ : string;
  __dataclass_fields__ : list Field
}.

Definition isinstance (v : pyval) (c : pyclass) : bool :=
  match c, v with
  | c_str, (PyStr _ | JSONString _) => true
  | c_int, (PyInt _ | PyBool _) => true
  | c_bool, PyBool _ => true
  | c_dict, PyDict _ => true
  | c_list, PyList _ => true
  | _, _ => false
  end.

(** [isinstance(value, data_class)] *)
Definition is_instance_of (v : pyval) (dc : DataClass) : bool :=
  match v with
  | PyInstance cls _ => String.eqb cls dc.(__name__)
  | _ => false
  end.

(** Modelled from the spec: the deep conversion of an instance to a
    mapping, [dataclasses.asdict], which is not under [src/]: instances,
    nested ones too, become dicts, containers are rebuilt, any other value
    is copied. *)
Fixpoint _asdict_inner (obj : pyval) : pyval :=
  match obj with
  | PyInstance _ attrs => PyDict (map (fun kv => (fst kv, _asdict_inner (snd kv))) attrs)
  | PyList l => PyList (map _asdict_inner l)
  | PyTuple l => PyTuple (map _asdict_inner l)
  | PyDict kvs => PyDict (map (fun kv => (fst kv, _asdict_inner (snd kv))) kvs)
  | _ => obj
  end.

Definition asdict (obj : pyval) : outcome pyval :=
  match obj with
  | PyInstance _ _ => Return (_asdict_inner obj)
  | _ => Raise TypeError
  end.

End Dataclasses.
Export Dataclasses.

(* ================================================================= *)
(** ** Hydration: [dacite.from_dict] *)

Module Dacite.

Inductive cast_type : Type := Enum | Dict.

Record Config : Type := { cast : list cast_type }.

(** [Config()] *)
Definition default_config : Config := {| cast := [] |}.

(** No modelled type is an enumeration; [dict] is the one subclass of
    [typing.Dict]. *)
Definition is_subclass (t : pytype) (ct : cast_type) : bool :=
  match t, ct with
  | TClass c_dict, Dict => true
  | _, _ => false
  end.

(** One item of the sequence given to [dict]: a key and a value. *)
Definition dict_item (e : pyval) : outcome (string * pyval) :=
  let keyed (k v : pyval) : outcome (string * pyval) :=
    match k with
    | PyStr s | JSONString s => Return (s, v)
    | PyNone | PyBool _ | PyInt _ | PyTuple _ => Unmodelled
    | PyList _ | PyDict _ | PyInstance _ _ => Raise TypeError
    end in
  match e with
  | PyList [k; v] | PyTuple [k; v] => keyed k v
  | PyList _ | PyTuple _ => Raise ValueError
  | PyStr (String a (String b EmptyString))
  | JSONString (String a (String b EmptyString)) =>
      Return (String a EmptyString, PyStr (String b EmptyString))
  | PyStr _ | JSONString _ => Raise ValueError
  | PyDict [(k1, _); (k2, _)] => Return (k1, PyStr k2)
  | PyDict _ => Raise ValueError
  | PyNone | PyBool _ | PyInt _ | PyInstance _ _ => Raise TypeError
  end.

(** [dict(data)] *)
Definition py_dict (data : pyval) : outcome pyval :=
  match data with
  | PyDict kvs => Return (PyDict kvs)
  | PyList l | PyTuple l =>
      pairs <- mapM dict_item l ;;
      Return (PyDict (dict_of_pairs pairs))
  | PyStr EmptyString | JSONString EmptyString => Return (PyDict [])
  | PyStr _ | JSONString _ => Raise ValueError
  | PyNone | PyBool _ | PyInt _ | PyInstance _ _ => Raise TypeError
  end.

(** The cast loop that ends [_build_value]: the first cast type the field
    type is a subclass of is applied. *)
Fixpoint apply_cast (casts : list cast_type) (t : pytype) (data : pyval) : outcome pyval :=
  match casts with
  | [] => Return data
  | ct :: rest => if is_subclass t ct then py_dict data else apply_cast rest t data
  end.

Definition _build_value (t : pytype) (data : pyval) (config : Config) : outcome pyval :=
  match t with
  | TClass _ | TNone => apply_cast config.(cast) t data
  | TOptional c =>
      match data with
      | PyNone => Return PyNone
      | _ => apply_cast config.(cast) (TClass c) data
      end
  | TOpaque _ => Unmodelled
  end.

(** dacite's [is_instance], the type check of a built value. *)
Definition is_instance (value : pyval) (t : pytype) : bool :=
  match t with
  | TClass c => isinstance value c
  | TNone => match value with PyNone => true | _ => false end
  | TOptional c => match value with PyNone => true | _ => isinstance value c end
  | TOpaque _ => false
  end.

Definition get_default_value_for_field (field : Field) (t : pytype) : option pyval :=
  match field.(default), field.(default_factory), t with
  | Some d, _, _ => Some d
  | None, Some d, _ => Some d
  | None, None, TOptional _ => Some PyNone
  | None, None, _ => None
  end.

(** [name in data] and [data[name]] for whatever [data] is. *)
Definition py_contains (data : pyval) (key : string) : outcome bool :=
  match data with
  | PyDict kvs => Return (dict_has key kvs)
  | PyStr s | JSONString s => Return (is_substring key s)
  | PyList l | PyTuple l => Return (py_in (PyStr key) l)
  | PyNone | PyBool _ | PyInt _ | PyInstance _ _ => Raise TypeError
  end.

Definition py_getitem (data : pyval) (key : string) : outcome pyval :=
  match data with
  | PyDict kvs =>
      match dict_get key kvs with
      | Some v => Return v
      | None => Raise KeyError
      end
  | _ => Raise TypeError
  end.

(** Modelled from the spec: hydration, [dacite.from_dict], which is not
    under [src/].  This is its loop over the fields: the attributes the new
    instance ends up with.  A value found in the data is built and type
    checked; a missing one is replaced by the default of the field, and a
    required field without one raises [MissingValueError].  A field that is not an [__init__] parameter, has
    no default and is absent from the data stays unset. *)
Fixpoint build_fields (fields : list Field) (data : pyval) (config : Config)
  : outcome (list (string * pyval)) :=
  match fields with
  | [] => Return []
  | field :: rest =>
      let field_type := hint field.(type) in
      present <- py_contains data field.(name) ;;
      if present then
        field_data <- py_getitem data field.(name) ;;
        value <- _build_value field_type field_data config ;;
        if is_instance value field_type then
          attrs <- build_fields rest data config ;;
          Return ((field.(name), value) :: attrs)
        else Raise (WrongTypeError field.(name))
      else
        match get_default_value_for_field field field_type with
        | Some value =>
            attrs <- build_fields rest data config ;;
            Return ((field.(name), value) :: attrs)
        | None =>
            if field.(init) then Raise (MissingValueError field.(name))
            else build_fields rest data config
        end
  end.

Definition from_dict (data_class : DataClass) (data : pyval) (config : Config)
  : outcome pyval :=
  attrs <- build_fields data_class.(__dataclass_fields__) data config ;;
  Return (PyInstance data_class.(__name__) attrs).

End Dacite.

(* ================================================================= *)
(** ** What the two field classes inherit from Django *)

Module Django.

(** Modelled from the spec: the empty-value set of a form field, which is
    [django.core.validators.EMPTY_VALUES] and is not under [src/]: [None],
    the empty string and the empty containers.  Membership is decided by
    [==]. *)
Definition EMPTY_VALUES : list pyval :=
  [PyNone; PyStr ""; PyList []; PyTuple []; PyDict []].

Section FormField.
(** [self.disabled] and the [to_python] of the class of [self]. *)
Variable disabled : bool.
Variable to_python : pyval -> outcome pyval.

(** Modelled from the spec: the change detection of the generic field,
    [django.forms.Field.has_changed], which is not under [src/]: [None] and
    the empty string count as the same value, and a validation error of
    [to_python] counts as a change. *)
Definition Field_has_changed (initial data : pyval) : outcome bool :=
  if disabled then Return false
  else
    match to_python data with
    | Raise (ValidationError _ _ _) => Return true
    | Raise e => Raise e
    | Unmodelled => Unmodelled
    | Return data' =>
        let initial_value := match initial with PyNone => PyStr "" | _ => initial end in
        let data_value := match data' with PyNone => PyStr "" | _ => data' end in
        Return (negb (py_eq initial_value data_value))
    end.

(** Modelled from the spec: [django.forms.JSONField.has_changed], the
    parent method [has_changed] calls, which is not under [src/]. *)
Definition JSONField_has_changed (initial data : pyval) : outcome bool :=
  changed <- Field_has_changed initial data ;;
  if changed then Return true
  else
    a <- Json.dumps initial ;;
    value <- to_python data ;;
    b <- Json.dumps value ;;
    Return (negb (String.eqb a b)).
End FormField.

(** Modelled from the spec: the storage primitive that parses stored text,
    [django.db.models.JSONField.from_db_value], which is not under [src/],
    on the value of a plain column: text that does not decode is handed
    back as it is. *)
Definition JSONField_from_db_value (value : pyval) : outcome pyval :=
  match value with
  | PyNone => Return PyNone
  | PyStr s | JSONString s =>
      match Json.loads s with
      | Raise JSONDecodeError => Return value
      | r => r
      end
  | _ => Raise TypeError
  end.

(** What a bound field hands to its widget: a Python value, or the text the
    user typed, tagged [InvalidJSONInput] because it does not decode. *)
Inductive widget_value : Type :=
| Plain (v : pyval)
| InvalidJSONInput (text : string).

(** Modelled from the spec: [django.forms.Widget.__init__], which is not
    under [src/]: the widget keeps a copy of the attributes it is given. *)
Definition Widget_init (attrs : option (list (string * pyval))) : list (string * pyval) :=
  match attrs with
  | None => []
  | Some a => a
  end.

End Django.

(* ================================================================= *)
(** ** [fields.py]: the widget *)

Module JSONWidget.

(** [__init__]: the attributes the widget ends up with.  An empty dict is
    as false as [None]. *)
Definition __init__ (attrs : option (list (string * pyval))) : list (string * pyval) :=
  let default_attrs := [("cols", PyStr "40"); ("rows", PyStr "20")] in
  let default_attrs :=
    match attrs with
    | Some ((_ :: _) as given) => dict_update default_attrs given
    | _ => default_attrs
    end in
  Django.Widget_init (Some default_attrs).

End JSONWidget.

(* ================================================================= *)
(** ** [fields.py]: the form field *)

Module DataClassFormField.

(** [default_error_messages["invalid"]] *)
Definition invalid_message : string :=
  "Enter valid JSON representation of the Dataclass.".

(** [isinstance(value, (list, dict, int, float, JSONString))] *)
Definition is_native (value : pyval) : bool :=
  match value with
  | PyList _ | PyDict _ | PyInt _ | PyBool _ | JSONString _ => true
  | _ => false
  end.

Definition to_python (disabled : bool) (value : pyval) : outcome pyval :=
  if disabled then Return value
  else if py_in value Django.EMPTY_VALUES then Return PyNone
  else if is_native value then Return value
  else
    match value with
    | PyStr s =>
        match Json.loads s with
        | Raise JSONDecodeError =>
            Raise (ValidationError invalid_message "invalid" value)
        | Raise e => Raise e
        | Unmodelled => Unmodelled
        | Return (PyStr converted) => Return (JSONString converted)
        | Return converted => Return converted
        end
    | _ => Raise TypeError
    end.

Definition has_changed (disabled : bool) (initial data : pyval) : outcome bool :=
  changed <- Django.JSONField_has_changed disabled (to_python disabled) initial data ;;
  if changed then Return true
  else
    a <- Json.dumps initial ;;
    value <- to_python disabled data ;;
    b <- Json.dumps value ;;
    Return (negb (String.eqb a b)).

(** [__init__], as far as the code of the class goes: the attributes of the
    widget it installs.  [schema] is what [kwargs.pop("schema", None)]
    finds. *)
Definition __init__ (schema : option pyval) : outcome (list (string * pyval)) :=
  let schema := match schema with Some s => s | None => PyNone end in
  text <- Json.dumps_with false true schema ;;
  Return (JSONWidget.__init__ (Some [("schema", PyStr text)])).

Definition bound_data (disabled : bool) (data initial : pyval)
  : outcome Django.widget_value :=
  if disabled then Return (Django.Plain initial)
  else
    match data with
    | PyNone => Return (Django.Plain PyNone)
    | PyStr s | JSONString s =>
        match Json.loads s with
        | Raise JSONDecodeError => Return (Django.InvalidJSONInput s)
        | Raise e => Raise e
        | Unmodelled => Unmodelled
        | Return v => Return (Django.Plain v)
        end
    | _ => Raise TypeError
    end.

Definition prepare_value (value : Django.widget_value) : outcome Django.widget_value :=
  match value with
  | Django.InvalidJSONInput _ => Return value
  | Django.Plain v =>
      v' <- match v with
            | PyInstance _ _ => asdict v
            | _ => Return v
            end ;;
      text <- Json.dumps_with false false v' ;;
      Return (Django.Plain (PyStr text))
  end.

End DataClassFormField.

(* ================================================================= *)
(** ** [fields.py]: the model field *)

Module DataClassField.

Definition type_message (data_class : DataClass) : string :=
  "Value must be of type " ++ data_class.(__name__).

Definition from_db_value (data_class : DataClass) (value : pyval) : outcome pyval :=
  from_db <- Django.JSONField_from_db_value value ;;
  match from_db with
  | PyNone => Return from_db
  | _ => Dacite.from_dict data_class from_db {| Dacite.cast := [Dacite.Enum; Dacite.Dict] |}
  end.

Definition to_python (data_class : DataClass) (value : pyval) : outcome pyval :=
  match value with
  | PyNone => Return value
  | _ =>
      if is_instance_of value data_class then Return value
      else
        obj <- match value with
               | PyStr s | JSONString s => Json.loads s
               | _ => Return value
               end ;;
        match Dacite.from_dict data_class obj Dacite.default_config with
        | Raise (ValidationError _ _ _) =>
            Raise (ValidationError (type_message data_class) "invalid" value)
        | Raise (MissingValueError _) =>
            Raise (ValidationError (type_message data_class) "invalid" value)
        | r => r
        end
  end.

Definition validate (data_class : DataClass) (value : pyval) : outcome unit :=
  match value with
  | PyNone => Return tt
  | _ =>
      if is_instance_of value data_class then Return tt
      else Raise (ValidationError (type_message data_class) "invalid" value)
  end.

Section GetPrepValue.
(** [JSONField.get_prep_value], the conversion of the parent class. *)
Variable super_get_prep_value : pyval -> outcome pyval.

Definition get_prep_value (data_class : DataClass) (value : pyval) : outcome pyval :=
  match value with
  | PyNone => Return value
  | _ =>
      if negb (is_instance_of value data_class) then
        _ <- to_python data_class value ;;
        super_get_prep_value value
      else
        mapping <- asdict value ;;
        super_get_prep_value mapping
  end.
End GetPrepValue.

End DataClassField.

(* ================================================================= *)
(** ** [fields.py]: the schema functions *)

Definition _lookup_scalar (type_hint : string) : outcome string :=
  if String.eqb type_hint "str" then Return "string"
  else if String.eqb type_hint "int" || String.eqb type_hint "float" then Return "number"
  else if String.eqb type_hint "dict" then Return "object"
  else if String.eqb type_hint "list" then Return "array"
  else if String.eqb type_hint "bool" then Return "boolean"
  else if String.eqb type_hint "None" then Return "null"
  else Raise ValueError.

Definition scalar_fragment (t : string) : pyval := PyDict [("type", PyStr t)].

(** The body of the [try] of [parse_type]. *)
Definition parse_type_body (type_hint : string) : outcome pyval :=
  if char_in "|" type_hint then
    types <- mapM (fun t => _lookup_scalar (strip t)) (split "|" type_hint) ;;
    Return (PyDict [("anyOf", PyList (map scalar_fragment types))])
  else if startswith type_hint "Optional[" then
    t <- _lookup_scalar (slice_to_last 9 type_hint) ;;
    Return (scalar_fragment t)
  else if startswith type_hint "List[" then
    t <- _lookup_scalar (slice_to_last 5 type_hint) ;;
    Return (PyDict [("type", PyStr "array"); ("items", scalar_fragment t)])
  else
    t <- _lookup_scalar type_hint ;;
    Return (scalar_fragment t).

Definition parse_type (type_hint : string) : outcome pyval :=
  match parse_type_body type_hint with
  | Raise ValueError => Return (PyDict [])
  | r => r
  end.

(** [d[key] = value] on whatever [d] is. *)
Definition py_setitem (d : pyval) (key : string) (value : pyval) : outcome pyval :=
  match d with
  | PyDict kvs => Return (PyDict (dict_set key value kvs))
  | _ => Raise TypeError
  end.

(** The body of the loop of [generate_schema], on the two members of the
    document it updates: [schema["properties"]] and [schema["required"]]. *)
Definition schema_step (dc_field : Field)
    (st : list (string * pyval) * list pyval)
  : outcome (list (string * pyval) * list pyval) :=
  let (properties, required) := st in
  let dc_key := dc_field.(name) in
  fragment <- parse_type (py_str dc_field.(type)) ;;
  fragment <- match dc_field.(default) with
              | Some d => py_setitem fragment "default" d
              | None => Return fragment
              end ;;
  Return (dict_set dc_key fragment properties,
          if dc_field.(init) then (required ++ [PyStr dc_key])%list else required).

Fixpoint schema_loop (fields : list Field)
    (st : list (string * pyval) * list pyval)
  : outcome (list (string * pyval) * list pyval) :=
  match fields with
  | [] => Return st
  | dc_field :: rest =>
      st' <- schema_step dc_field st ;;
      schema_loop rest st'
  end.

Definition generate_schema (dc : DataClass) : outcome pyval :=
  '(properties, required) <- schema_loop dc.(__dataclass_fields__) ([], []) ;;
  Return (PyDict [("$schema", PyStr "http://json-schema.org/draft-07/schema#");
                  ("type", PyStr "object");
                  ("properties", PyDict properties);
                  ("required", PyList required);
                  ("additionalProperties", PyBool false)]).

(** [DataClassField.formfield], as far as the code of the class goes: the
    schema it puts in [kwargs], and the attributes of the widget of the form
    field built from them.  The method stands here because it calls
    [generate_schema]. *)
Definition formfield_schema (data_class : DataClass) : outcome pyval :=
  match generate_schema data_class with
  | Return schema => Return schema
  | Raise _ => Return (PyDict [])
  | Unmodelled => Unmodelled
  end.

Definition formfield (data_class : DataClass) : outcome (list (string * pyval)) :=
  schema <- formfield_schema data_class ;;
  DataClassFormField.__init__ (Some schema).

(* ================================================================= *)
(** ** [examples/car_app/models.py] *)

Definition required_field (n : string) (c : pyclass) : Field :=
  {| name := n; type := Evaluated (TClass c);
     default := None; default_factory := None; init := true |}.

(** The class [Car]: its annotations are evaluated, the module does not
    postpone them. *)
Definition Car : DataClass :=
  {| __name__ := "Car";
     __dataclass_fields__ :=
       [required_field "brand" c_str; required_field "model" c_str;
        required_field "year" c_int; required_field "color" c_str] |}.

(* ================================================================= *)
(** ** Predicates and readings used by the statements *)

(** A value made of JSON data only: [None], booleans, integers, strings,
    lists and dicts of such values.  The keys of a dict are distinct, as
    they are in every Python dict. *)
Fixpoint json_value (v : pyval) : bool :=
  match v with
  | PyNone | PyBool _ | PyInt _ | PyStr _ => true
  | PyList l => forallb json_value l
  | PyDict kvs =>
      distinct (map fst kvs) && forallb (fun kv => json_value (snd kv)) kvs
  | JSONString _ | PyTuple _ | PyInstance _ _ => false
  end.

(** The fixed shape of the schema document. *)
Definition schema_document (properties : list (string * pyval)) (required : list pyval)
  : pyval :=
  PyDict [("$schema", PyStr "http://json-schema.org/draft-07/schema#");
          ("type", PyStr "object");
          ("properties", PyDict properties);
          ("required", PyList required);
          ("additionalProperties", PyBool false)].

Definition field_names (dc : DataClass) : list string :=
  map name dc.(__dataclass_fields__).

Definition has_default (f : Field) : bool :=
  match f.(default) with
  | Some _ => true
  | None => false
  end.

(** The fragment of a field: the type constraint, and the default when the
    field has one. *)
Definition with_default (f : Field) (constraint : list (string * pyval))
  : list (string * pyval) :=
  match f.(default) with
  | Some d => dict_set "default" d constraint
  | None => constraint
  end.

(** A dataclass whose one field has a default: [x: int = 5], with the
    annotation postponed. *)
Definition Point : DataClass :=
  {| __name__ := "Point";
     __dataclass_fields__ :=
       [{| name := "x"; type := Postponed "int" (TClass c_int);
           default := Some (PyInt 5); default_factory := None; init := true |}] |}.

(** [Car] declared in a module that postpones its annotations. *)
Definition postponed_field (n source : string) (c : pyclass) : Field :=
  {| name := n; type := Postponed source (TClass c);
     default := None; default_factory := None; init := true |}.

Definition PostponedCar : DataClass :=
  {| __name__ := "Car";
     __dataclass_fields__ :=
       [postponed_field "brand" "str" c_str; postponed_field "model" "str" c_str;
        postponed_field "year" "int" c_int; postponed_field "color" "str" c_str] |}.

(** [Car(brand="Ford", model="Focus", year=2020, color="red")] *)
Definition ford_attrs : list (string * pyval) :=
  [("brand", PyStr "Ford"); ("model", PyStr "Focus");
   ("year", PyInt 2020); ("color", PyStr "red")].

Definition ford : pyval := PyInstance "Car" ford_attrs.

(** A string of JSON whitespace only. *)
Definition blank (s : string) : bool :=
  forallb Json.is_ws (list_ascii_of_string s).

(** The mapping [{'a': 1, 'b': 2}], and a text with the same pairs in the
    other key order. *)
Definition ab_mapping : pyval := PyDict [("a", PyInt 1); ("b", PyInt 2)].
Definition ba_text : string := Json.text "{'b':2,'a':1}".

(** One item of a dict on its way to the encoded text: the key and the
    encoded value. *)
Definition dump_item (kv : string * pyval) : outcome (string * string) :=
  s <- Json.dumps (snd kv) ;; Return (fst kv, s).



(** Stored texts for [Car]: one with the brand only, one whose year is a
    string. *)
Definition brand_only_text : string := Json.text "{'brand': 'Ford'}".
Definition year_as_string_text : string :=
  Json.text "{'brand': 'Ford', 'model': 'Focus', 'year': '2020', 'color': 'red'}".

(** A dataclass with one field declared [dict], and a stored text whose
    value for it is a number. *)
Definition Tagged : DataClass :=
  {| __name__ := "Tagged";
     __dataclass_fields__ := [required_field "tags" c_dict] |}.
Definition tags_as_number_text : string := Json.text "{'tags': 5}".

(** A scanner leaves less text than it was given, and two scanners give
    the same answers, on texts no longer than [bound]. *)
Definition shrinks (scan : string -> outcome (pyval * string)) (bound : nat) : Prop :=
  forall s v r, String.length s <= bound -> scan s = Return (v, r) ->
                String.length r < String.length s.

Definition agree (scan1 scan2 : string -> outcome (pyval * string)) (bound : nat) : Prop :=
  forall s, String.length s <= bound -> scan1 s = scan2 s.

(** The type names of JSON Schema the scalar lookup can give. *)
Definition json_type_name (t : string) : bool :=
  existsb (String.eqb t) ["string"; "number"; "object"; "array"; "boolean"; "null"].

Definition is_scalar_fragment (v : pyval) : bool :=
  match v with
  | PyDict [(k, PyStr t)] => String.eqb k "type" && json_type_name t
  | _ => false
  end.

(** The four shapes of a type constraint: empty, one type, an array of one
    type, [anyOf] of types. *)
Definition is_constraint (v : pyval) : bool :=
  match v with
  | PyDict [] => true
  | PyDict [(k, PyList frs)] => String.eqb k "anyOf" && forallb is_scalar_fragment frs
  | PyDict [(k1, PyStr a); (k2, items)] =>
      String.eqb k1 "type" && String.eqb a "array"
      && String.eqb k2 "items" && is_scalar_fragment items
  | _ => is_scalar_fragment v
  end.

Definition array_fragment (t : string) : pyval :=
  PyDict [("type", PyStr "array"); ("items", scalar_fragment t)].

Definition any_of (ts : list string) : pyval :=
  PyDict [("anyOf", PyList (map scalar_fragment ts))].

(** No instance of a dataclass anywhere inside: what the default encoder
    can serialize. *)
Fixpoint serializable (v : pyval) : bool :=
  match v with
  | PyNone | PyBool _ | PyInt _ | PyStr _ | JSONString _ => true
  | PyList l | PyTuple l => forallb serializable l
  | PyDict kvs => forallb (fun kv => serializable (snd kv)) kvs
  | PyInstance _ _ => false
  end.

(** The default of a field, when it has one, can be serialized. *)
Definition default_serializable (f : Field) : bool :=
  match f.(default) with
  | Some d => serializable d
  | None => true
  end.

(** A dataclass with a field the scalar lookup takes, one it rejects that
    has a default, and one it rejects that has none:
    [label: str] (postponed), [price: Decimal = 5], [year: int]. *)
Definition Mixed : DataClass :=
  {| __name__ := "Mixed";
     __dataclass_fields__ :=
       [postponed_field "label" "str" c_str;
        {| name := "price"; type := Evaluated (TOpaque "<class 'decimal.Decimal'>");
           default := Some (PyInt 5); default_factory := None; init := true |};
        required_field "year" c_int] |}.

(** The [default] key alone, for a field that has a default. *)
Definition default_only (f : Field) : list (string * pyval) :=
  match f.(default) with
  | Some d => [("default", d)]
  | None => []
  end.

(** A field declared with one of the plain types: a builtin class, [None]
    or [Optional] of a builtin class. *)
Definition plainly_typed (f : Field) : bool :=
  match hint f.(type) with
  | TOpaque _ => false
  | _ => true
  end.

(** The text of the schema document of [Point]. *)
Definition point_schema_text : string :=
  Json.text
    ("{'$schema': 'http://json-schema.org/draft-07/schema#', 'type': 'object', "
     ++ "'properties': {'x': {'type': 'number', 'default': 5}}, "
     ++ "'required': ['x'], 'additionalProperties': false}").

(** A field that hydration cannot fill by itself: an [__init__] parameter
    with no default, no default factory and no [Optional] type. *)
Definition required_in_data (f : Field) : bool :=
  f.(init)
  && match f.(default), f.(default_factory), hint f.(type) with
     | None, None, (TClass _ | TNone | TOpaque _) => true
     | _, _, _ => false
     end.

(** The exceptions hydration raises by itself: neither a validation error
    nor a decode error. *)
Definition hydration_error (e : exn) : Prop :=
  match e with
  | ValidationError _ _ _ | JSONDecodeError => False
  | _ => True
  end.

(** The stored text of the Ford. *)
Definition ford_text : string :=
  Json.text "{'brand': 'Ford', 'model': 'Focus', 'year': 2020, 'color': 'red'}".

(** A dataclass whose one field has an instance as its default, as a frozen
    dataclass allows: [car: Car = Car(...)]. *)
Definition Listing : DataClass :=
  {| __name__ := "Listing";
     __dataclass_fields__ :=
       [{| name := "car"; type := Evaluated (TOpaque "<class 'car_app.models.Car'>");
           default := Some ford; default_factory := None; init := true |}] |}.

(* ================================================================= *)
(** ** Dicts and strings: basic facts *)

Lemma dict_get_set_same {A} (k : string) (v : A) (kvs : list (string * A)) :
  dict_get k (dict_set k v kvs) = Some v.
Proof.
  induction kvs as [|[k' v'] rest IH]; simpl.
  - now rewrite String.eqb_refl.
  - destruct (String.eqb k k') eqn:E; simpl.
    + now rewrite String.eqb_refl.
    + now rewrite E.
Qed.

Lemma dict_get_set_other {A} (k k0 : string) (v : A) (kvs : list (string * A)) :
  k <> k0 -> dict_get k (dict_set k0 v kvs) = dict_get k kvs.
Proof.
  intros Hne. induction kvs as [|[k' v'] rest IH]; simpl.
  - destruct (String.eqb_spec k k0); congruence.
  - destruct (String.eqb_spec k0 k') as [->|Hk]; simpl.
    + destruct (String.eqb_spec k k'); congruence.
    + destruct (String.eqb_spec k k'); auto.
Qed.

Lemma existsb_eqb_In (k : string) (l : list string) :
  existsb (String.eqb k) l = true <-> In k l.
Proof.
  rewrite existsb_exists. split.
  - intros (x & Hin & Heq). apply String.eqb_eq in Heq. now subst.
  - intros Hin. exists k. split; auto. apply String.eqb_refl.
Qed.

Lemma distinct_NoDup (l : list string) : distinct l = true <-> NoDup l.
Proof.
  induction l as [|k rest IH]; simpl.
  - split; auto using NoDup_nil.
  - rewrite andb_true_iff, negb_true_iff, IH. split.
    + intros [Hk Hr]. constructor; auto.
      intros Hin. apply existsb_eqb_In in Hin. congruence.
    + intros Hnd. inversion Hnd as [|? ? Hk Hr]; subst. split; auto.
      destruct (existsb (String.eqb k) rest) eqn:E; auto.
      apply existsb_eqb_In in E. contradiction.
Qed.

(* ================================================================= *)
(** ** The schema functions *)

Lemma lookup_scalar_cases (type_hint : string) :
  (exists t, _lookup_scalar type_hint = Return t)
  \/ _lookup_scalar type_hint = Raise ValueError.
Proof.
  unfold _lookup_scalar.
  repeat match goal with
         | |- context [if ?c then _ else _] => destruct c
         end; eauto.
Qed.

Lemma mapM_lookup_cases (g : string -> string) (l : list string) :
  (exists ts, mapM (fun t => _lookup_scalar (g t)) l = Return ts)
  \/ mapM (fun t => _lookup_scalar (g t)) l = Raise ValueError.
Proof.
  induction l as [|t rest IH]; simpl; eauto.
  destruct (lookup_scalar_cases (g t)) as [[x ->]| ->]; simpl; auto.
  destruct IH as [[ts ->]| ->]; simpl; eauto.
Qed.

(** [parse_type] always returns a dict, and the empty one when its body
    raised. *)
Lemma parse_type_returns (type_hint : string) :
  exists constraint,
    parse_type type_hint = Return (PyDict constraint)
    /\ (parse_type_body type_hint = Raise ValueError -> constraint = []).
Proof.
  unfold parse_type, parse_type_body, scalar_fragment.
  destruct (char_in "|" type_hint).
  - destruct (mapM_lookup_cases strip (split "|" type_hint)) as [[ts ->]| ->];
      simpl; eexists; split; eauto; discriminate.
  - destruct (startswith type_hint "Optional[").
    + destruct (lookup_scalar_cases (slice_to_last 9 type_hint)) as [[t ->]| ->];
        simpl; eexists; split; eauto; discriminate.
    + destruct (startswith type_hint "List[").
      * destruct (lookup_scalar_cases (slice_to_last 5 type_hint)) as [[t ->]| ->];
          simpl; eexists; split; eauto; discriminate.
      * destruct (lookup_scalar_cases type_hint) as [[t ->]| ->];
          simpl; eexists; split; eauto; discriminate.
Qed.

Lemma schema_step_returns (f : Field) (properties : list (string * pyval))
    (required : list pyval) :
  exists constraint,
    parse_type (py_str f.(type)) = Return (PyDict constraint)
    /\ schema_step f (properties, required)
       = Return (dict_set f.(name) (PyDict (with_default f constraint)) properties,
                 (required ++ map PyStr (map name (filter init [f])))%list).
Proof.
  destruct (parse_type_returns (py_str f.(type))) as (constraint & Hp & _).
  exists constraint. split; auto.
  unfold schema_step, with_default. rewrite Hp. simpl.
  destruct f.(default); simpl; destruct f.(init); simpl;
    now rewrite ?app_nil_r.
Qed.

(** The loop: the [required] list grows by the [__init__] fields in order,
    and each field finds its fragment under its name. *)
Lemma schema_loop_returns (fields : list Field) :
  forall properties required,
  exists properties',
    schema_loop fields (properties, required)
    = Return (properties',
              (required ++ map PyStr (map name (filter init fields)))%list)
    /\ (forall k, ~ In k (map name fields) ->
                  dict_get k properties' = dict_get k properties)
    /\ (NoDup (map name fields) ->
        forall f, In f fields ->
        exists constraint,
          parse_type (py_str f.(type)) = Return (PyDict constraint)
          /\ dict_get f.(name) properties'
             = Some (PyDict (with_default f constraint))).
Proof.
  induction fields as [|f rest IH]; intros properties required.
  - exists properties. simpl. rewrite app_nil_r. repeat split; auto.
    intros _ f [].
  - destruct (schema_step_returns f properties required) as (c & Hp & Hstep).
    cbn [schema_loop]. rewrite Hstep. cbn [bind].
    destruct (IH (dict_set f.(name) (PyDict (with_default f c)) properties)
                 (required ++ map PyStr (map name (filter init [f])))%list)
      as (properties' & Hloop & Hkeep & Hfind).
    exists properties'. split; [|split].
    + rewrite Hloop. do 2 f_equal. rewrite <- app_assoc. f_equal.
      simpl. destruct f.(init); reflexivity.
    + intros k Hk. simpl in Hk. rewrite Hkeep by tauto.
      apply dict_get_set_other. intros ->. tauto.
    + intros Hnd g Hg. simpl in Hnd. inversion Hnd as [|? ? Hfresh Hrest]; subst.
      destruct Hg as [<-|Hg].
      * exists c. split; auto. rewrite Hkeep by exact Hfresh.
        apply dict_get_set_same.
      * apply Hfind; auto.
Qed.

Lemma generate_schema_returns (dc : DataClass) :
  exists properties,
    generate_schema dc
    = Return (schema_document properties
                (map PyStr (map name (filter init dc.(__dataclass_fields__)))))
    /\ (NoDup (field_names dc) ->
        forall f, In f dc.(__dataclass_fields__) ->
        exists constraint,
          parse_type (py_str f.(type)) = Return (PyDict constraint)
          /\ dict_get f.(name) properties
             = Some (PyDict (with_default f constraint))).
Proof.
  destruct (schema_loop_returns dc.(__dataclass_fields__) [] [])
    as (properties & Hloop & _ & Hfind).
  exists properties. split; auto.
  unfold generate_schema. rewrite Hloop. reflexivity.
Qed.

(** With postponed annotations the text of [year: int] is ["int"], and the
    field gets the number constraint. *)
Lemma postponed_car_year_is_number :
  generate_schema PostponedCar
  = Return (schema_document
              [("brand", PyDict [("type", PyStr "string")]);
               ("model", PyDict [("type", PyStr "string")]);
               ("year", PyDict [("type", PyStr "number")]);
               ("color", PyDict [("type", PyStr "string")])]
              [PyStr "brand"; PyStr "model"; PyStr "year"; PyStr "color"]).
Proof. reflexivity. Qed.

(** C2, refuted as stated: the field [x: int = 5] of [Point] has a default
    and is listed in [required] all the same, so the document is not the
    one whose [required] list holds the fields without a default. *)
Lemma required_lists_field_with_default :
  has_default
    {| name := "x"; type := Postponed "int" (TClass c_int);
       default := Some (PyInt 5); default_factory := None; init := true |} = true
  /\ generate_schema Point
     = Return (schema_document
                 [("x", PyDict [("type", PyStr "number"); ("default", PyInt 5)])]
                 [PyStr "x"])
  /\ ~ (exists properties,
          generate_schema Point
          = Return (schema_document properties
                      (map PyStr
                         (map name
                            (filter (fun f => negb (has_default f))
                               Point.(__dataclass_fields__)))))).
Proof.
  split; [reflexivity|]. split; [reflexivity|].
  intros (properties & H). vm_compute in H. discriminate H.
Qed.

(** C2, amended: for every record type, [generate_schema] returns the
    document whose [required] list names exactly the fields that are
    [__init__] parameters, in declaration order, and every field with a
    default value carries it under the [default] key of its fragment. *)
Theorem generate_schema_required_and_defaults (dc : DataClass) :
  NoDup (field_names dc) ->
  exists properties,
    generate_schema dc
    = Return (schema_document properties
                (map PyStr (map name (filter init dc.(__dataclass_fields__)))))
    /\ forall f d,
         In f dc.(__dataclass_fields__) -> f.(default) = Some d ->
         exists fragment,
           dict_get f.(name) properties = Some (PyDict fragment)
           /\ dict_get "default" fragment = Some d.
Proof.
  intros Hnd. destruct (generate_schema_returns dc) as (properties & Hgen & Hfind).
  exists properties. split; auto.
  intros f d Hin Hd. destruct (Hfind Hnd f Hin) as (c & _ & Hget).
  exists (with_default f c). split; auto.
  unfold with_default. rewrite Hd. apply dict_get_set_same.
Qed.

Lemma generate_schema_required_and_defaults_witness :
  NoDup (field_names Point)
  /\ exists properties,
       generate_schema Point
       = Return (schema_document properties
                   (map PyStr (map name (filter init Point.(__dataclass_fields__)))))
       /\ forall f d,
            In f Point.(__dataclass_fields__) -> f.(default) = Some d ->
            exists fragment,
              dict_get f.(name) properties = Some (PyDict fragment)
              /\ dict_get "default" fragment = Some d.
Proof.
  assert (Hnd : NoDup (field_names Point)).
  { apply distinct_NoDup. reflexivity. }
  split; [exact Hnd|]. exact (generate_schema_required_and_defaults Point Hnd).
Defined.

(** C5, evaluated on the example type: the annotations of [Car] are
    evaluated, [str] of the class [int] is not the text ["int"], the scalar
    lookup raises and the fragment of [year] is the empty constraint;
    [year] is in [required]. *)
Theorem car_year_fragment_is_empty :
  py_str (Evaluated (TClass c_int)) = "<class 'int'>"
  /\ parse_type_body "<class 'int'>" = Raise ValueError
  /\ generate_schema Car
     = Return (schema_document
                 [("brand", PyDict []); ("model", PyDict []);
                  ("year", PyDict []); ("color", PyDict [])]
                 [PyStr "brand"; PyStr "model"; PyStr "year"; PyStr "color"]).
Proof. repeat split. Qed.

(** The body of [parse_type] raises [ValueError] or returns a dict that is
    not empty. *)
Lemma parse_type_body_cases (type_hint : string) :
  parse_type_body type_hint = Raise ValueError
  \/ exists constraint,
       constraint <> [] /\ parse_type_body type_hint = Return (PyDict constraint).
Proof.
  unfold parse_type_body, scalar_fragment.
  destruct (char_in "|" type_hint).
  - destruct (mapM_lookup_cases strip (split "|" type_hint)) as [[ts ->]| ->];
      simpl; auto. right. eexists. split; [|reflexivity]. discriminate.
  - destruct (startswith type_hint "Optional[").
    + destruct (lookup_scalar_cases (slice_to_last 9 type_hint)) as [[t ->]| ->];
        simpl; auto. right. eexists. split; [|reflexivity]. discriminate.
    + destruct (startswith type_hint "List[").
      * destruct (lookup_scalar_cases (slice_to_last 5 type_hint)) as [[t ->]| ->];
          simpl; auto. right. eexists. split; [|reflexivity]. discriminate.
      * destruct (lookup_scalar_cases type_hint) as [[t ->]| ->];
          simpl; auto. right. eexists. split; [|reflexivity]. discriminate.
Qed.

(** A text the scalar lookup takes is one of its seven names, and the body
    of [parse_type] gives it the fragment of that one type. *)
Lemma lookup_scalar_body (type_hint t : string) :
  _lookup_scalar type_hint = Return t ->
  parse_type_body type_hint = Return (scalar_fragment t).
Proof.
  unfold _lookup_scalar.
  destruct (String.eqb_spec type_hint "str") as [->|_].
  { intros H. injection H as <-. reflexivity. }
  destruct (String.eqb_spec type_hint "int") as [->|_].
  { intros H. injection H as <-. reflexivity. }
  destruct (String.eqb_spec type_hint "float") as [->|_].
  { intros H. injection H as <-. reflexivity. }
  simpl.
  destruct (String.eqb_spec type_hint "dict") as [->|_].
  { intros H. injection H as <-. reflexivity. }
  destruct (String.eqb_spec type_hint "list") as [->|_].
  { intros H. injection H as <-. reflexivity. }
  destruct (String.eqb_spec type_hint "bool") as [->|_].
  { intros H. injection H as <-. reflexivity. }
  destruct (String.eqb_spec type_hint "None") as [->|_].
  { intros H. injection H as <-. reflexivity. }
  discriminate.
Qed.

(** C6, refuted as stated: the annotation of [price: Decimal = 5] is
    rejected by the scalar lookup, and the fragment of the field holds its
    default: it is not the empty dict. *)
Lemma unmapped_field_keeps_its_default :
  parse_type_body "<class 'decimal.Decimal'>" = Raise ValueError
  /\ generate_schema Mixed
     = Return (schema_document
                 [("label", PyDict [("type", PyStr "string")]);
                  ("price", PyDict [("default", PyInt 5)]);
                  ("year", PyDict [])]
                 [PyStr "label"; PyStr "price"; PyStr "year"])
  /\ ~ (exists properties required,
          generate_schema Mixed = Return (schema_document properties required)
          /\ dict_get "price" properties = Some (PyDict [])).
Proof.
  split; [reflexivity|]. split; [reflexivity|].
  intros (properties & required & Hgen & Hget).
  vm_compute in Hgen. injection Hgen as <- _. vm_compute in Hget. discriminate Hget.
Qed.

(** C6, amended: [generate_schema] returns the document for every record
    type.  A field whose annotation the scalar lookup rejects has its type
    constraint degraded to the empty one: its fragment is [{}] when it has no
    default and holds the [default] key alone when it has one.  Every other
    field keeps the fragment of its own annotation, which is not empty: for
    an annotation text the scalar lookup takes, the one [type] of the
    lookup (and the default, when the field has one). *)
Theorem generate_schema_never_raises (dc : DataClass) :
  exists properties required,
    generate_schema dc = Return (schema_document properties required)
    /\ (NoDup (field_names dc) ->
        forall f, In f dc.(__dataclass_fields__) ->
          (parse_type_body (py_str f.(type)) = Raise ValueError
           \/ exists constraint,
                constraint <> []
                /\ parse_type_body (py_str f.(type)) = Return (PyDict constraint))
          /\ (parse_type_body (py_str f.(type)) = Raise ValueError ->
              dict_get f.(name) properties = Some (PyDict (default_only f)))
          /\ (forall constraint,
                 parse_type_body (py_str f.(type)) = Return (PyDict constraint) ->
                 dict_get f.(name) properties
                 = Some (PyDict (with_default f constraint)))
          /\ (forall t,
                 _lookup_scalar (py_str f.(type)) = Return t ->
                 dict_get f.(name) properties
                 = Some (PyDict (with_default f [("type", PyStr t)])))).
Proof.
  destruct (generate_schema_returns dc) as (properties & Hgen & Hfind).
  exists properties, (map PyStr (map name (filter init dc.(__dataclass_fields__)))).
  split; auto.
  intros Hnd f Hin. destruct (Hfind Hnd f Hin) as (c & Hp & Hget).
  assert (Hret : forall constraint,
             parse_type_body (py_str f.(type)) = Return (PyDict constraint) ->
             dict_get f.(name) properties = Some (PyDict (with_default f constraint))).
  { intros c' Hb. unfold parse_type in Hp. rewrite Hb in Hp.
    injection Hp as <-. exact Hget. }
  split; [apply parse_type_body_cases|]. split; [|split].
  - intros Hb. unfold parse_type in Hp. rewrite Hb in Hp. injection Hp as <-.
    rewrite Hget. unfold with_default, default_only.
    destruct f.(default); reflexivity.
  - exact Hret.
  - intros t Ht. apply Hret. exact (lookup_scalar_body _ _ Ht).
Qed.

Lemma generate_schema_never_raises_witness :
  exists properties required,
    generate_schema Mixed = Return (schema_document properties required)
    /\ dict_get "label" properties = Some (PyDict [("type", PyStr "string")])
    /\ dict_get "price" properties = Some (PyDict [("default", PyInt 5)])
    /\ dict_get "year" properties = Some (PyDict []).
Proof.
  destruct (generate_schema_never_raises Mixed) as (properties & required & Hgen & Hfind).
  exists properties, required. split; [exact Hgen|].
  assert (Hnd : NoDup (field_names Mixed)) by (apply distinct_NoDup; reflexivity).
  split; [|split].
  - destruct (Hfind Hnd (postponed_field "label" "str" c_str)) as (_ & _ & _ & Hscalar).
    { simpl. auto. }
    exact (Hscalar "string" eq_refl).
  - destruct (Hfind Hnd
                {| name := "price"; type := Evaluated (TOpaque "<class 'decimal.Decimal'>");
                   default := Some (PyInt 5); default_factory := None; init := true |})
      as (_ & Hdeg & _).
    { simpl. auto. }
    exact (Hdeg eq_refl).
  - destruct (Hfind Hnd (required_field "year" c_int)) as (_ & Hdeg & _).
    { simpl. auto. }
    exact (Hdeg eq_refl).
Defined.

(* ================================================================= *)
(** ** The form field: [to_python] *)

Lemma str_not_empty_value (s : string) :
  s <> "" -> py_in (PyStr s) Django.EMPTY_VALUES = false.
Proof.
  intros Hs. unfold py_in, Django.EMPTY_VALUES. simpl.
  destruct s; [contradiction|reflexivity].
Qed.

Lemma skip_ws_blank (s : string) : blank s = true -> Json.skip_ws s = "".
Proof.
  unfold blank. induction s as [|c rest IH]; simpl; auto.
  intros H. apply andb_true_iff in H as [Hc Hrest]. rewrite Hc. auto.
Qed.

Lemma loads_blank (s : string) : blank s = true -> Json.loads s = Raise JSONDecodeError.
Proof.
  intros H. unfold Json.loads. rewrite (skip_ws_blank s H). reflexivity.
Qed.

(** A string that is not empty and does not decode is rejected with the
    message of the form field. *)
Lemma form_to_python_rejects (s : string) :
  s <> "" ->
  Json.loads s = Raise JSONDecodeError ->
  DataClassFormField.to_python false (PyStr s)
  = Raise (ValidationError DataClassFormField.invalid_message "invalid" (PyStr s)).
Proof.
  intros Hs Hl. unfold DataClassFormField.to_python.
  rewrite (str_not_empty_value s Hs). simpl. now rewrite Hl.
Qed.

(** Whatever the input, the decode error does not leave [to_python]. *)
Lemma form_to_python_never_decode_error (disabled : bool) (value : pyval) :
  DataClassFormField.to_python disabled value <> Raise JSONDecodeError.
Proof.
  unfold DataClassFormField.to_python.
  destruct disabled; [discriminate|].
  destruct (py_in value Django.EMPTY_VALUES); [discriminate|].
  destruct (DataClassFormField.is_native value); [discriminate|].
  destruct value; try discriminate.
  destruct (Json.loads s) as [[]|[]|]; discriminate.
Qed.

(** C7, refuted as stated: the whitespace-only string is not answered with
    [None]. *)
Lemma whitespace_is_not_an_empty_value :
  DataClassFormField.to_python false (PyStr "   ") <> Return PyNone.
Proof. vm_compute. discriminate. Qed.

(** C7, amended: on a field that is not disabled, [to_python] returns
    [None] for [None] and for the empty string; a whitespace-only string is
    not an empty value: it goes to the JSON decoder, which rejects it, and
    [to_python] raises the malformed-input validation error. *)
Theorem form_to_python_empty_and_blank (s : string) :
  s <> "" ->
  blank s = true ->
  DataClassFormField.to_python false PyNone = Return PyNone
  /\ DataClassFormField.to_python false (PyStr "") = Return PyNone
  /\ DataClassFormField.to_python false (PyStr s)
     = Raise (ValidationError DataClassFormField.invalid_message "invalid" (PyStr s)).
Proof.
  intros Hs Hb. repeat split.
  apply form_to_python_rejects; auto using loads_blank.
Qed.

Lemma form_to_python_empty_and_blank_witness :
  DataClassFormField.to_python false PyNone = Return PyNone
  /\ DataClassFormField.to_python false (PyStr "") = Return PyNone
  /\ DataClassFormField.to_python false (PyStr "   ")
     = Raise (ValidationError DataClassFormField.invalid_message "invalid" (PyStr "   ")).
Proof.
  apply (form_to_python_empty_and_blank "   "); [discriminate|reflexivity].
Defined.

(** C8, refuted as stated: the empty string does not decode, and a field
    that is not disabled answers it with [None]; a disabled field hands any
    text back without decoding it. *)
Lemma undecodable_text_is_not_always_rejected :
  Json.loads "" = Raise JSONDecodeError
  /\ DataClassFormField.to_python false (PyStr "") = Return PyNone
  /\ Json.loads "{not json" = Raise JSONDecodeError
  /\ DataClassFormField.to_python true (PyStr "{not json") = Return (PyStr "{not json").
Proof. repeat split. Qed.

(** C8, amended: on a field that is not disabled, every non-empty string
    that is not syntactically valid JSON makes [to_python] raise the
    validation error with the fixed message, the code [invalid] and the raw
    string in its params; the decode error itself does not escape. *)
Theorem form_to_python_malformed_input (s : string) :
  s <> "" ->
  Json.loads s = Raise JSONDecodeError ->
  DataClassFormField.to_python false (PyStr s)
  = Raise (ValidationError "Enter valid JSON representation of the Dataclass."
             "invalid" (PyStr s))
  /\ forall disabled value,
       DataClassFormField.to_python disabled value <> Raise JSONDecodeError.
Proof.
  intros Hs Hl. split; [exact (form_to_python_rejects s Hs Hl)|].
  exact form_to_python_never_decode_error.
Qed.

Lemma form_to_python_malformed_input_witness :
  DataClassFormField.to_python false (PyStr "{not json")
  = Raise (ValidationError "Enter valid JSON representation of the Dataclass."
             "invalid" (PyStr "{not json"))
  /\ forall disabled value,
       DataClassFormField.to_python disabled value <> Raise JSONDecodeError.
Proof.
  apply (form_to_python_malformed_input "{not json"); [discriminate|reflexivity].
Defined.

(** C10, refuted as stated: the text of an empty JSON object is decoded and
    returned as the empty dict, which is not what an absent value gives. *)
Lemma empty_object_text_stays_a_dict :
  DataClassFormField.to_python false (PyStr "{}") = Return (PyDict [])
  /\ DataClassFormField.to_python false (PyStr "") = Return PyNone
  /\ DataClassFormField.to_python false (PyStr "{}")
     <> DataClassFormField.to_python false (PyStr "").
Proof. repeat split. vm_compute. discriminate. Qed.

(** C10, amended: on a field that is not disabled, [to_python] returns
    [None] for each of the empty containers given as a value, because they
    are members of the empty-value set; the text of an empty JSON object is
    not a member: it is decoded and returned as the empty dict. *)
Theorem form_to_python_empty_containers :
  py_in (PyDict []) Django.EMPTY_VALUES = true
  /\ py_in (PyList []) Django.EMPTY_VALUES = true
  /\ py_in (PyTuple []) Django.EMPTY_VALUES = true
  /\ DataClassFormField.to_python false (PyDict []) = Return PyNone
  /\ DataClassFormField.to_python false (PyList []) = Return PyNone
  /\ DataClassFormField.to_python false (PyTuple []) = Return PyNone
  /\ py_in (PyStr "{}") Django.EMPTY_VALUES = false
  /\ DataClassFormField.to_python false (PyStr "{}") = Return (PyDict []).
Proof. repeat split. Qed.

(* ================================================================= *)
(** ** Key order: sorting the items of a dict *)

Lemma string_compare_le_trans (a b c : string) :
  String.compare a b <> Gt -> String.compare b c <> Gt -> String.compare a c <> Gt.
Proof.
  revert b c. induction a as [|x a IH]; intros [|y b] [|z c]; simpl;
    try congruence.
  unfold Ascii.compare.
  destruct (N.compare_spec (N_of_ascii x) (N_of_ascii y));
    destruct (N.compare_spec (N_of_ascii y) (N_of_ascii z));
    destruct (N.compare_spec (N_of_ascii x) (N_of_ascii z));
    try lia; try congruence; eauto.
Qed.

Lemma string_leb_trans (a b c : string) :
  String.leb a b = true -> String.leb b c = true -> String.leb a c = true.
Proof.
  unfold String.leb. intros Hab Hbc.
  assert (H : String.compare a c <> Gt).
  { apply (string_compare_le_trans a b c).
    - destruct (String.compare a b); congruence.
    - destruct (String.compare b c); congruence. }
  destruct (String.compare a c); congruence.
Qed.

Ltac order_contradiction :=
  match goal with
  | H1 : String.leb ?a ?b = true, H2 : String.leb ?b ?a = true, Hne : ?a <> ?b |- _ =>
      exfalso; apply Hne; exact (String.leb_antisym a b H1 H2)
  | H1 : String.leb ?a ?b = true, H2 : String.leb ?b ?a = true, Hne : ?b <> ?a |- _ =>
      exfalso; apply Hne; symmetry; exact (String.leb_antisym a b H1 H2)
  | H1 : String.leb ?a ?b = false, H2 : String.leb ?b ?a = false |- _ =>
      exfalso; destruct (String.leb_total a b); congruence
  | H1 : String.leb ?a ?b = true, H2 : String.leb ?b ?c = true,
    H3 : String.leb ?a ?c = false |- _ =>
      exfalso; rewrite (string_leb_trans a b c H1 H2) in H3; discriminate
  end.

Lemma insert_item_comm {A} (x y : string * A) (l : list (string * A)) :
  fst x <> fst y ->
  Json.insert_item x (Json.insert_item y l) = Json.insert_item y (Json.insert_item x l).
Proof.
  intros Hne. induction l as [|h t IH]; simpl.
  - destruct (String.leb (fst x) (fst y)) eqn:Hxy;
      destruct (String.leb (fst y) (fst x)) eqn:Hyx;
      try reflexivity; order_contradiction.
  - destruct (String.leb (fst y) (fst h)) eqn:Hyh;
      destruct (String.leb (fst x) (fst h)) eqn:Hxh; simpl;
      rewrite ?Hyh, ?Hxh;
      try (destruct (String.leb (fst x) (fst y)) eqn:Hxy);
      try (destruct (String.leb (fst y) (fst x)) eqn:Hyx);
      simpl; rewrite ?Hyh, ?Hxh; try reflexivity; try order_contradiction.
    all: f_equal; exact IH.
Qed.

(** The sorted items do not depend on the insertion order of a dict. *)
Lemma sort_items_perm {A} (l l' : list (string * A)) :
  Permutation l l' -> NoDup (map fst l) -> Json.sort_items l = Json.sort_items l'.
Proof.
  induction 1 as [|x l l' Hp IH|x y l|l l' l'' Hp1 IH1 Hp2 IH2]; intros Hnd; simpl.
  - reflexivity.
  - inversion Hnd; subst. f_equal. auto.
  - apply insert_item_comm. simpl in Hnd. inversion Hnd as [|? ? Hin _]; subst.
    simpl in Hin. intros Heq. apply Hin. left. congruence.
  - rewrite IH1 by assumption. apply IH2.
    eapply Permutation_NoDup; [|exact Hnd]. now apply Permutation_map.
Qed.

(* ================================================================= *)
(** ** Encoding and equality of JSON values *)

Lemma mapM_cons_inv {A B} (f : A -> outcome B) (x : A) (l : list A) (ys : list B) :
  mapM f (x :: l) = Return ys ->
  exists y ys', f x = Return y /\ mapM f l = Return ys' /\ ys = y :: ys'.
Proof.
  simpl. destruct (f x) as [y| |]; simpl; try discriminate.
  destruct (mapM f l) as [ys'| |]; simpl; try discriminate.
  intros H. injection H as <-. eauto.
Qed.

Lemma mapM_returns {A B} (f : A -> outcome B) (l : list A) :
  Forall (fun x => exists y, f x = Return y) l -> exists ys, mapM f l = Return ys.
Proof.
  induction 1 as [|x l [y Hy] _ [ys Hys]]; simpl; eauto.
  rewrite Hy, Hys. simpl. eauto.
Qed.

Lemma mapM_perm {A B} (f : A -> outcome B) (l l' : list A) :
  Permutation l l' ->
  forall ys, mapM f l = Return ys ->
  exists ys', mapM f l' = Return ys' /\ Permutation ys ys'.
Proof.
  induction 1 as [|x l l' Hp IH|x y l|l l' l'' Hp1 IH1 Hp2 IH2]; intros ys Hys.
  - exists ys. split; auto.
  - apply mapM_cons_inv in Hys as (y & ys0 & Hy & Hys0 & ->).
    destruct (IH ys0 Hys0) as (ys' & Hys' & Hperm).
    exists (y :: ys'). simpl. rewrite Hy, Hys'. simpl. auto.
  - apply mapM_cons_inv in Hys as (b & ys0 & Hb & Hys0 & ->).
    apply mapM_cons_inv in Hys0 as (a & ys1 & Ha & Hys1 & ->).
    exists (a :: b :: ys1). simpl. rewrite Ha, Hb, Hys1. simpl.
    split; auto. apply perm_swap.
  - destruct (IH1 ys Hys) as (ys' & Hys' & Hperm1).
    destruct (IH2 ys' Hys') as (ys'' & Hys'' & Hperm2).
    exists ys''. split; auto. eapply perm_trans; eauto.
Qed.

Lemma dump_item_keys (kvs : list (string * pyval)) (items : list (string * string)) :
  mapM dump_item kvs = Return items -> map fst items = map fst kvs.
Proof.
  revert items. induction kvs as [|kv rest IH]; intros items H.
  - simpl in H. injection H as <-. reflexivity.
  - apply mapM_cons_inv in H as (y & ys & Hy & Hys & ->). simpl.
    rewrite (IH ys Hys). f_equal.
    unfold dump_item in Hy. destruct (Json.dumps (snd kv)); simpl in Hy; try discriminate.
    now injection Hy as <-.
Qed.

Lemma dumps_dict (kvs : list (string * pyval)) :
  Json.dumps (PyDict kvs)
  = bind (mapM dump_item kvs)
      (fun items =>
         Return (Json.join_items "{" "}"
                   (map (fun ks => (Json.encode_basestring_ascii (fst ks) ++ ": " ++ snd ks)%string)
                        (Json.sort_items items)))).
Proof. reflexivity. Qed.

(** Every JSON value has an encoded text. *)
Lemma dumps_json_value (v : pyval) :
  json_value v = true -> exists s, Json.dumps v = Return s.
Proof.
  induction v as [|b|z|s|s|l IH|l IH|kvs IH|c kvs IH] using pyval_deep_ind;
    simpl; intros Hv; try discriminate; eauto.
  - destruct b; eauto.
  - destruct (mapM_returns Json.dumps l) as [items Hitems].
    { rewrite forallb_forall in Hv. rewrite Forall_forall in *. auto. }
    rewrite Hitems. simpl. eauto.
  - apply andb_true_iff in Hv as [_ Hv].
    destruct (mapM_returns dump_item kvs) as [items Hitems].
    { rewrite forallb_forall in Hv. rewrite Forall_forall in *.
      intros kv Hin. destruct (IH kv Hin (Hv kv Hin)) as [s Hs].
      exists (fst kv, s). unfold dump_item. now rewrite Hs. }
    fold dump_item. rewrite Hitems. simpl. eauto.
Qed.

(** Two dicts with the same items have the same encoded text, whatever the
    order of their keys. *)
Lemma dumps_dict_perm (kvs kvs' : list (string * pyval)) :
  json_value (PyDict kvs) = true ->
  Permutation kvs kvs' ->
  exists s, Json.dumps (PyDict kvs) = Return s /\ Json.dumps (PyDict kvs') = Return s.
Proof.
  intros Hv Hperm.
  destruct (dumps_json_value _ Hv) as [s Hs]. exists s. split; auto.
  rewrite dumps_dict in *.
  destruct (mapM dump_item kvs) as [items| |] eqn:Hitems; simpl in Hs; try discriminate.
  destruct (mapM_perm dump_item kvs kvs' Hperm items Hitems) as (items' & Hitems' & Hp).
  rewrite Hitems'. simpl. rewrite <- Hs. do 3 f_equal.
  symmetry. apply sort_items_perm; auto.
  rewrite (dump_item_keys kvs items Hitems).
  simpl in Hv. apply andb_true_iff in Hv as [Hd _]. now apply distinct_NoDup.
Qed.

Lemma dict_get_In {A} (k : string) (v : A) (kvs : list (string * A)) :
  NoDup (map fst kvs) -> In (k, v) kvs -> dict_get k kvs = Some v.
Proof.
  induction kvs as [|[k' v'] rest IH]; simpl; intros Hnd Hin; [contradiction|].
  inversion Hnd as [|? ? Hfresh Hrest]; subst.
  destruct Hin as [Heq|Hin].
  - injection Heq as -> ->. now rewrite String.eqb_refl.
  - destruct (String.eqb_spec k k') as [->|Hne]; auto.
    exfalso. apply Hfresh. change k' with (fst (k', v)). now apply in_map.
Qed.

Lemma items_in_true (ys xs : list (string * pyval)) :
  (forall kv, In kv xs ->
              dict_get (fst kv) ys = Some (snd kv) /\ py_eq (snd kv) (snd kv) = true) ->
  items_in py_eq ys xs = true.
Proof.
  induction xs as [|[k x] rest IH]; simpl; intros H; auto.
  destruct (H (k, x)) as [Hget Heq]; auto. simpl in *.
  rewrite Hget, Heq. simpl. apply IH. auto.
Qed.

(** A JSON value is equal to itself. *)
Lemma py_eq_refl (v : pyval) : json_value v = true -> py_eq v v = true.
Proof.
  induction v as [|b|z|s|s|l IH|l IH|kvs IH|c kvs IH] using pyval_deep_ind;
    simpl; intros Hv; try discriminate; auto.
  - apply Bool.eqb_reflx.
  - apply Z.eqb_refl.
  - apply String.eqb_refl.
  - induction l as [|x l IHl]; simpl; auto.
    simpl in Hv. apply andb_true_iff in Hv as [Hx Hl].
    inversion IH; subst. rewrite H1 by exact Hx. simpl. auto.
  - apply andb_true_iff in Hv as [Hd Hv]. rewrite Nat.eqb_refl. simpl.
    apply items_in_true. intros kv Hin. split.
    + apply dict_get_In; [now apply distinct_NoDup|]. now destruct kv.
    + rewrite forallb_forall in Hv. rewrite Forall_forall in IH. auto.
Qed.

(** Dicts are equal when they hold the same items, in any order. *)
Lemma py_eq_dict_perm (kvs kvs' : list (string * pyval)) :
  json_value (PyDict kvs) = true ->
  Permutation kvs kvs' ->
  py_eq (PyDict kvs) (PyDict kvs') = true.
Proof.
  intros Hv Hperm. simpl in *. apply andb_true_iff in Hv as [Hd Hv].
  rewrite (Permutation_length Hperm), Nat.eqb_refl. simpl.
  apply items_in_true. intros kv Hin. split.
  - apply dict_get_In.
    + eapply Permutation_NoDup; [apply Permutation_map; exact Hperm|].
      now apply distinct_NoDup.
    + destruct kv. eapply Permutation_in; eauto.
  - apply py_eq_refl. rewrite forallb_forall in Hv. auto.
Qed.

(* ================================================================= *)
(** ** What the decoder returns *)

Lemma bind_return_inv {A B} (m : outcome A) (k : A -> outcome B) (b : B) :
  bind m k = Return b -> exists a, m = Return a /\ k a = Return b.
Proof. destruct m; simpl; try discriminate. eauto. Qed.

Lemma in_dict_set_keys {A} (x k : string) (v : A) (d : list (string * A)) :
  In x (map fst (dict_set k v d)) -> x = k \/ In x (map fst d).
Proof.
  induction d as [|[k' v'] rest IH]; simpl.
  - intros [<-|[]]; auto.
  - destruct (String.eqb_spec k k') as [->|Hne]; simpl; intros [<-|Hin]; auto.
    destruct (IH Hin); auto.
Qed.

Lemma dict_set_NoDup {A} (k : string) (v : A) (d : list (string * A)) :
  NoDup (map fst d) -> NoDup (map fst (dict_set k v d)).
Proof.
  induction d as [|[k' v'] rest IH]; simpl; intros Hnd.
  - constructor; auto using NoDup_nil.
  - inversion Hnd as [|? ? Hfresh Hrest]; subst.
    destruct (String.eqb_spec k k') as [->|Hne]; simpl.
    + constructor; auto.
    + constructor; auto. intros Hin. apply in_dict_set_keys in Hin as [->|Hin]; auto.
Qed.

Lemma dict_set_json (k : string) (v : pyval) (d : list (string * pyval)) :
  json_value v = true ->
  forallb (fun kv => json_value (snd kv)) d = true ->
  forallb (fun kv => json_value (snd kv)) (dict_set k v d) = true.
Proof.
  intros Hv. induction d as [|[k' v'] rest IH]; simpl.
  - now rewrite Hv.
  - intros H. apply andb_true_iff in H as [H1 H2].
    destruct (String.eqb k k'); simpl; rewrite ?Hv, ?H1; simpl; auto.
Qed.

Lemma dict_of_pairs_json (pairs : list (string * pyval)) :
  forallb (fun kv => json_value (snd kv)) pairs = true ->
  json_value (PyDict (dict_of_pairs pairs)) = true.
Proof.
  unfold dict_of_pairs.
  assert (H : forall acc,
             json_value (PyDict acc) = true ->
             forallb (fun kv => json_value (snd kv)) pairs = true ->
             json_value (PyDict (fold_left (fun d kv => dict_set (fst kv) (snd kv) d) pairs acc)) = true).
  { induction pairs as [|[k v] pairs IH]; simpl; intros acc Hacc Hp; auto.
    apply andb_true_iff in Hp as [Hv Hp]. apply IH; auto.
    apply andb_true_iff in Hacc as [Hd Hj]. apply andb_true_iff. split.
    - apply distinct_NoDup. apply dict_set_NoDup. now apply distinct_NoDup.
    - now apply dict_set_json. }
  apply H. reflexivity.
Qed.

Section Scan.
Variable scan : string -> outcome (pyval * string).
Hypothesis scan_json : forall s v r, scan s = Return (v, r) -> json_value v = true.

Lemma array_items_json (fuel : nat) :
  forall s vs r, Json.array_items scan fuel s = Return (vs, r) -> forallb json_value vs = true.
Proof.
  induction fuel as [|fuel IH]; simpl; intros s vs r H; [discriminate|].
  apply bind_return_inv in H as ([value r0] & Hscan & H).
  destruct (Json.skip_ws r0) as [|c r']; [discriminate|].
  destruct (Ascii.eqb c "]").
  - injection H as <- <-. simpl. now rewrite (scan_json _ _ _ Hscan).
  - destruct (Ascii.eqb c ","); [|discriminate].
    apply bind_return_inv in H as ([values r''] & Hrest & H).
    injection H as <- <-. simpl. rewrite (scan_json _ _ _ Hscan). simpl. eauto.
Qed.

Lemma object_pairs_json (fuel : nat) :
  forall s pairs r,
    Json.object_pairs scan fuel s = Return (pairs, r) ->
    forallb (fun kv => json_value (snd kv)) pairs = true.
Proof.
  induction fuel as [|fuel IH]; simpl; intros s pairs r H; [discriminate|].
  apply bind_return_inv in H as ([key r0] & Hkey & H).
  destruct (Json.skip_ws r0) as [|c r1]; [discriminate|].
  destruct c as [[] [] [] [] [] [] [] []]; try discriminate.
  apply bind_return_inv in H as ([value r2] & Hscan & H).
  destruct (Json.skip_ws r2) as [|c r3]; [discriminate|].
  destruct (Ascii.eqb c "}").
  - injection H as <- <-. simpl. now rewrite (scan_json _ _ _ Hscan).
  - destruct (Ascii.eqb c ","); [|discriminate].
    destruct (Json.skip_ws r3) as [|q r4]; [discriminate|].
    destruct (Ascii.eqb q Json.dquote); [|discriminate].
    apply bind_return_inv in H as ([pairs' r5] & Hrest & H).
    injection H as <- <-. simpl. rewrite (scan_json _ _ _ Hscan). simpl. eauto.
Qed.
End Scan.

Lemma scan_once_json (fuel : nat) :
  forall s v r, Json.scan_once fuel s = Return (v, r) -> json_value v = true.
Proof.
  induction fuel as [|fuel IH]; simpl; intros s v r H; [discriminate|].
  destruct s as [|c rest]; [discriminate|].
  destruct (Ascii.eqb c Json.dquote).
  { apply bind_return_inv in H as ([str r0] & _ & H). now injection H as <- <-. }
  destruct (Ascii.eqb c "{").
  { unfold Json.JSONObject in H.
    destruct (Json.skip_ws rest) as [|c' r0]; [discriminate|].
    destruct (Ascii.eqb c' "}"); [now injection H as <- <-|].
    destruct (Ascii.eqb c' Json.dquote); [|discriminate].
    apply bind_return_inv in H as ([pairs r1] & Hpairs & H). injection H as <- <-.
    apply dict_of_pairs_json. eapply object_pairs_json; eauto. }
  destruct (Ascii.eqb c "[").
  { unfold Json.JSONArray in H.
    assert (Hitems : forall s', (vs_r <- Json.array_items (Json.scan_once fuel) fuel s' ;;
                                 (let '(values, r0) := vs_r in Return (PyList values, r0)))
                                = Return (v, r) -> json_value v = true).
    { intros s' H'. apply bind_return_inv in H' as ([vs r0] & Hvs & H').
      injection H' as <- <-. simpl. eapply array_items_json; eauto. }
    destruct (Json.skip_ws rest) as [|c' r0]; [eauto|].
    destruct c' as [[] [] [] [] [] [] [] []]; eauto.
    now injection H as <- <-. }
  destruct (startswith (String c rest) "null"); [now injection H as <- <-|].
  destruct (startswith (String c rest) "true"); [now injection H as <- <-|].
  destruct (startswith (String c rest) "false"); [now injection H as <- <-|].
  destruct (Json.match_integer (String c rest)) as [[n r0]|].
  - destruct (Json.has_frac r0 || Json.has_exp r0); [discriminate|]. now injection H as <- <-.
  - destruct (_ || _); discriminate.
Qed.

(** What [loads] returns is a JSON value. *)
Lemma loads_json_value (s : string) (v : pyval) :
  Json.loads s = Return v -> json_value v = true.
Proof.
  unfold Json.loads. intros H.
  apply bind_return_inv in H as ([obj rest] & Hscan & H).
  destruct (Json.skip_ws rest); [|discriminate]. injection H as <-.
  eapply scan_once_json; eauto.
Qed.

Lemma json_value_dict_perm (kvs kvs' : list (string * pyval)) :
  Permutation kvs kvs' ->
  json_value (PyDict kvs') = true -> json_value (PyDict kvs) = true.
Proof.
  simpl. intros Hperm H. apply andb_true_iff in H as [Hd Hv].
  apply andb_true_iff. split.
  - apply distinct_NoDup. apply distinct_NoDup in Hd.
    eapply Permutation_NoDup; [|exact Hd].
    apply Permutation_map. now apply Permutation_sym.
  - rewrite forallb_forall in *. intros kv Hin. apply Hv.
    eapply Permutation_in; eauto.
Qed.

(* ================================================================= *)
(** ** The fuel of the decoder *)

Lemma skip_ws_length (s : string) : String.length (Json.skip_ws s) <= String.length s.
Proof.
  induction s as [|c rest IH]; simpl; auto.
  destruct (Json.is_ws c); simpl; lia.
Qed.

Lemma drop_length (n : nat) (s : string) :
  String.length (drop n s) = String.length s - n.
Proof.
  revert s. induction n as [|n IH]; intros [|c rest]; simpl; auto.
Qed.

Lemma scan_digits_length (s : string) :
  forall acc z r, Json.scan_digits acc s = (z, r) -> String.length r <= String.length s.
Proof.
  induction s as [|c rest IH]; simpl; intros acc z r H.
  - injection H as <- <-. simpl. lia.
  - destruct (Json.is_digit c).
    + apply IH in H. lia.
    + injection H as <- <-. simpl. lia.
Qed.

Lemma unsigned_integer_length (s : string) (z : Z) (r : string) :
  Json.unsigned_integer s = Some (z, r) -> String.length r < String.length s.
Proof.
  destruct s as [|c rest]; simpl; [discriminate|].
  destruct (Ascii.eqb c "0").
  - intros H. injection H as <- <-. lia.
  - destruct (Json.is_digit c); [|discriminate].
    intros H. injection H as H. apply scan_digits_length in H. lia.
Qed.

Lemma match_integer_length (s : string) (z : Z) (r : string) :
  Json.match_integer s = Some (z, r) -> String.length r < String.length s.
Proof.
  destruct s as [|c rest]; cbn [Json.match_integer]; [discriminate|].
  destruct (Ascii.eqb c "-").
  - destruct (Json.unsigned_integer rest) as [[n r']|] eqn:E; [|discriminate].
    intros H. injection H as <- <-. apply unsigned_integer_length in E. simpl. lia.
  - apply unsigned_integer_length.
Qed.

Lemma scanstring_length (n : nat) :
  forall s str r,
    String.length s <= n ->
    Json.scanstring s = Return (str, r) -> String.length r < String.length s.
Proof.
  induction n as [|n IH]; intros s str r Hn H.
  - destruct s; [discriminate|simpl in Hn; lia].
  - destruct s as [|c rest]; [discriminate|]. simpl in Hn. simpl in H.
    destruct (Ascii.eqb c Json.dquote).
    { injection H as <- <-. simpl. lia. }
    destruct (Ascii.eqb c Json.backslash).
    { destruct rest as [|esc rest']; [discriminate|]. simpl in Hn.
      destruct (Ascii.eqb esc "u").
      - destruct rest' as [|h1 [|h2 [|h3 [|h4 rest'']]]]; try discriminate.
        simpl in Hn.
        destruct (Json.decode_uXXXX h1 h2 h3 h4) as [uni|]; [|discriminate].
        destruct (uni <? 256)%N; [|discriminate].
        destruct (Json.scanstring rest'') as [[str' r']| |] eqn:E; try discriminate.
        simpl in H. injection H as <- <-.
        apply IH in E; [|lia]. simpl. lia.
      - destruct (Json.unescape esc); [|discriminate].
        destruct (Json.scanstring rest') as [[str' r']| |] eqn:E; try discriminate.
        simpl in H. injection H as <- <-.
        apply IH in E; [|lia]. simpl. lia. }
    destruct (N_of_ascii c <? 32)%N; [discriminate|].
    destruct (Json.scanstring rest) as [[str' r']| |] eqn:E; try discriminate.
    simpl in H. injection H as <- <-.
    apply IH in E; [|lia]. simpl. lia.
Qed.

Lemma shrinks_le scan b b' : b' <= b -> shrinks scan b -> shrinks scan b'.
Proof. intros Hb H s v r Hs. apply H. lia. Qed.

Lemma agree_le s1 s2 b b' : b' <= b -> agree s1 s2 b -> agree s1 s2 b'.
Proof. intros Hb H s Hs. apply H. lia. Qed.

Lemma array_items_length scan (fuel : nat) :
  forall s vs r,
    shrinks scan (String.length s) ->
    Json.array_items scan fuel s = Return (vs, r) -> String.length r < String.length s.
Proof.
  induction fuel as [|fuel IH]; simpl; intros s vs r Hsh H; [discriminate|].
  destruct (scan s) as [[value r0]| |] eqn:Hscan; try discriminate. simpl in H.
  apply Hsh in Hscan; [|lia].
  pose proof (skip_ws_length r0) as Hws.
  destruct (Json.skip_ws r0) as [|c r']; [discriminate|]. simpl in Hws.
  destruct (Ascii.eqb c "]").
  - injection H as <- <-. lia.
  - destruct (Ascii.eqb c ","); [|discriminate].
    pose proof (skip_ws_length r') as Hws'.
    destruct (Json.array_items scan fuel (Json.skip_ws r')) as [[values r'']| |] eqn:E;
      try discriminate.
    simpl in H. injection H as <- <-.
    apply IH in E; [lia|]. eapply shrinks_le; [|exact Hsh]. lia.
Qed.

Lemma array_items_fuel scan1 scan2 (f1 : nat) :
  forall f2 s,
    shrinks scan1 (String.length s) ->
    agree scan1 scan2 (String.length s) ->
    String.length s < f1 -> String.length s < f2 ->
    Json.array_items scan1 f1 s = Json.array_items scan2 f2 s.
Proof.
  induction f1 as [|f1 IH]; intros [|f2] s Hsh Hag H1 H2; try lia.
  simpl. rewrite <- (Hag s) by lia.
  destruct (scan1 s) as [[value r0]| |] eqn:Hscan; auto. simpl.
  apply Hsh in Hscan; [|lia].
  pose proof (skip_ws_length r0) as Hws.
  destruct (Json.skip_ws r0) as [|c r']; auto. simpl in Hws.
  destruct (Ascii.eqb c "]"); auto.
  destruct (Ascii.eqb c ","); auto.
  pose proof (skip_ws_length r') as Hws'.
  rewrite (IH f2 (Json.skip_ws r')); auto; try lia.
  - eapply shrinks_le; [|exact Hsh]. lia.
  - eapply agree_le; [|exact Hag]. lia.
Qed.

Lemma object_pairs_length scan (fuel : nat) :
  forall s pairs r,
    shrinks scan (String.length s) ->
    Json.object_pairs scan fuel s = Return (pairs, r) -> String.length r < String.length s.
Proof.
  induction fuel as [|fuel IH]; simpl; intros s pairs r Hsh H; [discriminate|].
  destruct (Json.scanstring s) as [[key r0]| |] eqn:Hkey; try discriminate. simpl in H.
  apply (scanstring_length (String.length s)) in Hkey; [|lia].
  pose proof (skip_ws_length r0) as Hws0.
  destruct (Json.skip_ws r0) as [|c r1]; [discriminate|]. simpl in Hws0.
  destruct c as [[] [] [] [] [] [] [] []]; try discriminate.
  pose proof (skip_ws_length r1) as Hws1.
  destruct (scan (Json.skip_ws r1)) as [[value r2]| |] eqn:Hscan; try discriminate.
  simpl in H. apply Hsh in Hscan; [|lia].
  pose proof (skip_ws_length r2) as Hws2.
  destruct (Json.skip_ws r2) as [|c r3]; [discriminate|]. simpl in Hws2.
  destruct (Ascii.eqb c "}").
  - injection H as <- <-. lia.
  - destruct (Ascii.eqb c ","); [|discriminate].
    pose proof (skip_ws_length r3) as Hws3.
    destruct (Json.skip_ws r3) as [|q r4]; [discriminate|]. simpl in Hws3.
    destruct (Ascii.eqb q Json.dquote); [|discriminate].
    destruct (Json.object_pairs scan fuel r4) as [[pairs' r5]| |] eqn:E; try discriminate.
    simpl in H. injection H as <- <-.
    apply IH in E; [lia|]. eapply shrinks_le; [|exact Hsh]. lia.
Qed.

Lemma object_pairs_fuel scan1 scan2 (f1 : nat) :
  forall f2 s,
    shrinks scan1 (String.length s) ->
    agree scan1 scan2 (String.length s) ->
    String.length s < f1 -> String.length s < f2 ->
    Json.object_pairs scan1 f1 s = Json.object_pairs scan2 f2 s.
Proof.
  induction f1 as [|f1 IH]; intros [|f2] s Hsh Hag H1 H2; try lia.
  simpl.
  destruct (Json.scanstring s) as [[key r0]| |] eqn:Hkey; auto. simpl.
  apply (scanstring_length (String.length s)) in Hkey; [|lia].
  pose proof (skip_ws_length r0) as Hws0.
  destruct (Json.skip_ws r0) as [|c r1]; auto. simpl in Hws0.
  destruct c as [[] [] [] [] [] [] [] []]; auto.
  pose proof (skip_ws_length r1) as Hws1.
  rewrite <- (Hag (Json.skip_ws r1)) by lia.
  destruct (scan1 (Json.skip_ws r1)) as [[value r2]| |] eqn:Hscan; auto. simpl.
  apply Hsh in Hscan; [|lia].
  pose proof (skip_ws_length r2) as Hws2.
  destruct (Json.skip_ws r2) as [|c r3]; auto. simpl in Hws2.
  destruct (Ascii.eqb c "}"); auto.
  destruct (Ascii.eqb c ","); auto.
  pose proof (skip_ws_length r3) as Hws3.
  destruct (Json.skip_ws r3) as [|q r4]; auto. simpl in Hws3.
  destruct (Ascii.eqb q Json.dquote); auto.
  rewrite (IH f2 r4); auto; try lia.
  - eapply shrinks_le; [|exact Hsh]. lia.
  - eapply agree_le; [|exact Hag]. lia.
Qed.

Lemma scan_once_length (fuel : nat) :
  forall s v r, Json.scan_once fuel s = Return (v, r) -> String.length r < String.length s.
Proof.
  induction fuel as [|fuel IH]; simpl; intros s v r H; [discriminate|].
  assert (Hsh : forall b, shrinks (Json.scan_once fuel) b).
  { intros b s' v' r' _. apply IH. }
  destruct s as [|c rest]; [discriminate|].
  destruct (Ascii.eqb c Json.dquote).
  { destruct (Json.scanstring rest) as [[str r0]| |] eqn:E; try discriminate.
    simpl in H. injection H as <- <-.
    apply (scanstring_length (String.length rest)) in E; simpl; lia. }
  destruct (Ascii.eqb c "{").
  { unfold Json.JSONObject in H.
    pose proof (skip_ws_length rest) as Hws.
    destruct (Json.skip_ws rest) as [|c' r0]; [discriminate|]. simpl in Hws.
    destruct (Ascii.eqb c' "}"); [injection H as <- <-; simpl; lia|].
    destruct (Ascii.eqb c' Json.dquote); [|discriminate].
    destruct (Json.object_pairs (Json.scan_once fuel) fuel r0) as [[pairs r1]| |] eqn:E;
      try discriminate.
    simpl in H. injection H as <- <-.
    apply object_pairs_length in E; auto. simpl. lia. }
  destruct (Ascii.eqb c "[").
  { unfold Json.JSONArray in H.
    pose proof (skip_ws_length rest) as Hws.
    assert (Hitems : forall s', String.length s' <= String.length rest ->
                       (vs_r <- Json.array_items (Json.scan_once fuel) fuel s' ;;
                        (let '(values, r0) := vs_r in Return (PyList values, r0)))
                       = Return (v, r) -> String.length r < String.length (String c rest)).
    { intros s' Hs' H'.
      destruct (Json.array_items (Json.scan_once fuel) fuel s') as [[vs r0]| |] eqn:E;
        try discriminate.
      simpl in H'. injection H' as <- <-.
      apply array_items_length in E; auto. simpl. lia. }
    destruct (Json.skip_ws rest) as [|c' r0]; [apply (Hitems ""); simpl; auto; lia|].
    destruct c' as [[] [] [] [] [] [] [] []];
      try (apply (Hitems _ Hws); exact H).
    injection H as <- <-. simpl in *. lia. }
  destruct (startswith (String c rest) "null") eqn:E1.
  { injection H as <- <-. destruct rest as [|? [|? [|? [|? ?]]]]; simpl; lia. }
  destruct (startswith (String c rest) "true") eqn:E2.
  { injection H as <- <-. destruct rest as [|? [|? [|? [|? ?]]]]; simpl; lia. }
  destruct (startswith (String c rest) "false") eqn:E3.
  { injection H as <- <-. destruct rest as [|? [|? [|? [|? ?]]]]; simpl; lia. }
  destruct (Json.match_integer (String c rest)) as [[n r0]|] eqn:E.
  - destruct (Json.has_frac r0 || Json.has_exp r0); [discriminate|].
    injection H as <- <-. now apply match_integer_length in E.
  - destruct (_ || _); discriminate.
Qed.

Lemma scan_once_shrinks (fuel bound : nat) : shrinks (Json.scan_once fuel) bound.
Proof. intros s v r _. apply scan_once_length. Qed.

(** Fuel above the length of the text does not change what is decoded. *)
Lemma scan_once_fuel (n : nat) :
  forall m s,
    String.length s < n -> String.length s < m ->
    Json.scan_once n s = Json.scan_once m s.
Proof.
  induction n as [|n IH]; intros [|m] s Hn Hm; try lia.
  simpl. destruct s as [|c rest]; auto. simpl in Hn, Hm.
  assert (Hag : forall b, b < n -> b < m -> agree (Json.scan_once n) (Json.scan_once m) b).
  { intros b Hb Hb' t Ht. apply IH; lia. }
  pose proof (skip_ws_length rest) as Hws.
  destruct (Ascii.eqb c Json.dquote); auto.
  destruct (Ascii.eqb c "{").
  { unfold Json.JSONObject.
    destruct (Json.skip_ws rest) as [|c' r0]; auto. simpl in Hws.
    destruct (Ascii.eqb c' "}"); auto.
    destruct (Ascii.eqb c' Json.dquote); auto.
    rewrite (object_pairs_fuel (Json.scan_once n) (Json.scan_once m) n m r0); auto;
      try lia.
    - apply scan_once_shrinks.
    - apply Hag; lia. }
  destruct (Ascii.eqb c "[").
  { unfold Json.JSONArray.
    assert (Hitems : forall s', String.length s' <= String.length rest ->
                       Json.array_items (Json.scan_once n) n s'
                       = Json.array_items (Json.scan_once m) m s').
    { intros s' Hs'. apply array_items_fuel; try lia.
      - apply scan_once_shrinks.
      - apply Hag; lia. }
    destruct (Json.skip_ws rest) as [|c' r0]; [now rewrite Hitems by (simpl; lia)|].
    destruct c' as [[] [] [] [] [] [] [] []]; try now rewrite Hitems by exact Hws.
    reflexivity. }
  reflexivity.
Qed.

(** [loads] gives the same answer with any larger fuel. *)
Lemma loads_fuel (fuel : nat) (s : string) :
  String.length s < fuel ->
  Json.loads s
  = ('(obj, rest) <- Json.scan_once fuel (Json.skip_ws s) ;;
     match Json.skip_ws rest with
     | EmptyString => Return obj
     | String _ _ => Raise JSONDecodeError
     end).
Proof.
  intros H. unfold Json.loads. pose proof (skip_ws_length s).
  rewrite (scan_once_fuel (S (String.length s)) fuel (Json.skip_ws s)); auto; lia.
Qed.

(* ================================================================= *)
(** ** The form field: [has_changed] *)

(** [has_changed] answers [False] exactly when the check of
    [django.forms.Field] does and the two encoded texts are the same. *)
Lemma has_changed_false_iff (disabled : bool) (initial data : pyval) :
  DataClassFormField.has_changed disabled initial data = Return false
  <-> Django.Field_has_changed disabled (DataClassFormField.to_python disabled)
        initial data = Return false
      /\ exists a value,
           Json.dumps initial = Return a
           /\ DataClassFormField.to_python disabled data = Return value
           /\ Json.dumps value = Return a.
Proof.
  unfold DataClassFormField.has_changed, Django.JSONField_has_changed.
  destruct (Django.Field_has_changed disabled (DataClassFormField.to_python disabled)
              initial data) as [[|]| |]; simpl.
  - split; [discriminate|]. intros [H _]. discriminate.
  - destruct (Json.dumps initial) as [a| |] eqn:Ha; simpl;
      try (split; [discriminate|intros (_ & ? & ? & ? & _); discriminate]).
    destruct (DataClassFormField.to_python disabled data) as [value| |] eqn:Hv; simpl;
      try (split; [discriminate|intros (_ & ? & ? & _ & ? & _); discriminate]).
    destruct (Json.dumps value) as [b| |] eqn:Hb; simpl;
      try (split; [discriminate
                  |intros (_ & ? & ? & _ & Hv' & Hb'); injection Hv' as <-; congruence]).
    destruct (String.eqb_spec a b) as [->|Hne]; simpl.
    + split; auto. intros _. split; auto. exists b, value. auto.
    + split; [discriminate|].
      intros (_ & a' & value' & Ha' & Hv' & Hb').
      injection Ha' as <-. injection Hv' as <-. congruence.
  - split; [discriminate|]. intros [H _]. discriminate.
  - split; [discriminate|]. intros [H _]. discriminate.
Qed.

(** C9, refuted as stated: a tuple and the text of a list have the same
    encoded text, and [has_changed] answers [True]; on a disabled field the
    mapping [{'a': 1, 'b': 2}] and the text with the keys in the other order
    are answered with [True] as well. *)
Lemma has_changed_despite_equal_texts :
  Json.dumps (PyTuple [PyInt 1; PyInt 2]) = Return "[1, 2]"
  /\ DataClassFormField.to_python false (PyStr "[1, 2]") = Return (PyList [PyInt 1; PyInt 2])
  /\ Json.dumps (PyList [PyInt 1; PyInt 2]) = Return "[1, 2]"
  /\ DataClassFormField.has_changed false (PyTuple [PyInt 1; PyInt 2]) (PyStr "[1, 2]")
     = Return true
  /\ Json.loads ba_text = Return (PyDict [("b", PyInt 2); ("a", PyInt 1)])
  /\ DataClassFormField.has_changed true ab_mapping (PyStr ba_text) = Return true.
Proof. repeat split. Qed.

(** C9, amended: [has_changed] reports [False] exactly when the change
    detection of the generic field reports unchanged and the encoded text
    with sorted keys of the initial value equals that of [to_python(data)];
    in particular, on a field that is not disabled, for every mapping and
    every text that decodes to the same key/value pairs in another key
    order, [has_changed] returns [False]. *)
Theorem has_changed_ignores_key_order :
  (forall disabled initial data,
      DataClassFormField.has_changed disabled initial data = Return false
      <-> Django.Field_has_changed disabled (DataClassFormField.to_python disabled)
            initial data = Return false
          /\ exists a value,
               Json.dumps initial = Return a
               /\ DataClassFormField.to_python disabled data = Return value
               /\ Json.dumps value = Return a)
  /\ (forall kvs kvs' data,
         Permutation kvs kvs' ->
         Json.loads data = Return (PyDict kvs') ->
         DataClassFormField.has_changed false (PyDict kvs) (PyStr data) = Return false).
Proof.
  split; [exact has_changed_false_iff|].
  intros kvs kvs' data Hperm Hload.
  assert (Hv : json_value (PyDict kvs) = true).
  { apply (json_value_dict_perm kvs kvs' Hperm). exact (loads_json_value data _ Hload). }
  assert (Hdata : data <> "").
  { intros ->. vm_compute in Hload. discriminate. }
  assert (Hpy : DataClassFormField.to_python false (PyStr data) = Return (PyDict kvs')).
  { unfold DataClassFormField.to_python.
    rewrite (str_not_empty_value data Hdata). simpl. now rewrite Hload. }
  apply has_changed_false_iff. split.
  - unfold Django.Field_has_changed. rewrite Hpy.
    now rewrite (py_eq_dict_perm kvs kvs' Hv Hperm).
  - destruct (dumps_dict_perm kvs kvs' Hv Hperm) as (s & Hs & Hs').
    exists s, (PyDict kvs'). auto.
Qed.

Lemma has_changed_ignores_key_order_witness :
  DataClassFormField.has_changed false ab_mapping (PyStr ba_text) = Return false.
Proof.
  apply (proj2 has_changed_ignores_key_order
           [("a", PyInt 1); ("b", PyInt 2)] [("b", PyInt 2); ("a", PyInt 1)] ba_text).
  - apply perm_swap.
  - reflexivity.
Defined.

(* ================================================================= *)
(** ** The model field: outbound and inbound conversion *)






Lemma apply_cast_conforming (casts : list Dacite.cast_type) (c : pyclass) (v : pyval) :
  isinstance v c = true -> Dacite.apply_cast casts (TClass c) v = Return v.
Proof.
  intros Hv. induction casts as [|ct casts IH]; simpl; auto.
  destruct c, ct; simpl; auto.
  destruct v; simpl in Hv; try discriminate. reflexivity.
Qed.

Lemma apply_cast_none (casts : list Dacite.cast_type) (v : pyval) :
  Dacite.apply_cast casts TNone v = Return v.
Proof. induction casts as [|ct casts IH]; simpl; auto. Qed.

(** A value that passes the type check of a field is built as it is, with
    or without casts. *)
Lemma build_value_conforming (t : pytype) (v : pyval) (config : Dacite.Config) :
  Dacite.is_instance v t = true ->
  Dacite._build_value t v config = Return v.
Proof.
  destruct t as [c| |c|repr]; simpl; try discriminate.
  - apply apply_cast_conforming.
  - intros _. apply apply_cast_none.
  - destruct v; auto; apply apply_cast_conforming.
Qed.


(** The text of a value that does not decode makes [to_python] raise the
    decode error itself. *)
Lemma to_python_decode_error (data_class : DataClass) (s : string) :
  Json.loads s = Raise JSONDecodeError ->
  DataClassField.to_python data_class (PyStr s) = Raise JSONDecodeError.
Proof.
  intros H. unfold DataClassField.to_python. simpl. now rewrite H.
Qed.


(** The example of the spec: the mapping of the Ford. *)
Lemma ford_mapping : asdict ford = Return (PyDict ford_attrs).
Proof. reflexivity. Qed.



(** C3, evaluated: on the read path nothing is caught, so a stored mapping
    without the required fields makes [from_db_value] raise dacite's
    [MissingValueError], and a failing cast its [TypeError]; [to_python]
    turns the missing field into the validation error, but lets the type
    mismatch of a field escape as [WrongTypeError]. *)
Theorem from_db_value_lets_hydration_errors_escape :
  DataClassField.from_db_value Car (PyStr brand_only_text)
  = Raise (MissingValueError "model")
  /\ DataClassField.from_db_value Tagged (PyStr tags_as_number_text) = Raise TypeError
  /\ DataClassField.to_python Car (PyStr brand_only_text)
     = Raise (ValidationError "Value must be of type Car" "invalid" (PyStr brand_only_text))
  /\ DataClassField.to_python Car (PyStr year_as_string_text)
     = Raise (WrongTypeError "year").
Proof. repeat split. Qed.

(** C4, evaluated: [to_python] decodes the text outside its [try], so text
    that is not JSON makes it raise the decode error, not a validation
    error. *)
Theorem to_python_lets_decode_error_escape :
  Json.loads "{not json" = Raise JSONDecodeError
  /\ DataClassField.to_python Car (PyStr "{not json") = Raise JSONDecodeError.
Proof. repeat split. Qed.

(* ================================================================= *)
(** ** Further properties of the schema functions *)

Lemma lookup_scalar_range (type_hint t : string) :
  _lookup_scalar type_hint = Return t -> json_type_name t = true.
Proof.
  unfold _lookup_scalar.
  repeat match goal with
         | |- context [if ?c then _ else _] => destruct c
         end; intros H; try discriminate; now injection H as <-.
Qed.

Lemma mapM_lookup_range (g : string -> string) (l : list string) (ts : list string) :
  mapM (fun t => _lookup_scalar (g t)) l = Return ts ->
  forallb is_scalar_fragment (map scalar_fragment ts) = true.
Proof.
  revert ts. induction l as [|x l IH]; intros ts H.
  - simpl in H. now injection H as <-.
  - apply mapM_cons_inv in H as (t & ts' & Ht & Hts & ->). simpl.
    rewrite (lookup_scalar_range _ _ Ht). simpl. auto.
Qed.

Lemma parse_type_is_constraint (type_hint : string) :
  exists fragment,
    parse_type type_hint = Return fragment /\ is_constraint fragment = true.
Proof.
  unfold parse_type, parse_type_body.
  destruct (char_in "|" type_hint).
  - destruct (mapM (fun t => _lookup_scalar (strip t)) (split "|" type_hint))
      as [ts| |] eqn:E.
    + simpl. eexists. split; [reflexivity|]. simpl.
      exact (mapM_lookup_range strip _ _ E).
    + destruct (mapM_lookup_cases strip (split "|" type_hint)) as [[ts H]|H];
        rewrite E in H; try discriminate. injection H as ->.
      simpl. eexists. split; reflexivity.
    + destruct (mapM_lookup_cases strip (split "|" type_hint)) as [[ts H]|H];
        rewrite E in H; discriminate.
  - destruct (startswith type_hint "Optional[").
    + destruct (lookup_scalar_cases (slice_to_last 9 type_hint)) as [[t H]|H];
        rewrite H; simpl; eexists; (split; [reflexivity|]); auto.
      simpl. now rewrite (lookup_scalar_range _ _ H).
    + destruct (startswith type_hint "List[").
      * destruct (lookup_scalar_cases (slice_to_last 5 type_hint)) as [[t H]|H];
          rewrite H; simpl; eexists; (split; [reflexivity|]); auto.
        simpl. now rewrite (lookup_scalar_range _ _ H).
      * destruct (lookup_scalar_cases type_hint) as [[t H]|H];
          rewrite H; simpl; eexists; (split; [reflexivity|]); auto.
        simpl. now rewrite (lookup_scalar_range _ _ H).
Qed.

(** X1: whatever the annotation text, [parse_type] returns one of the four
    constraint shapes, and every type name in it is one of the six names of
    JSON Schema. *)
Theorem parse_type_gives_a_constraint (type_hint : string) :
  exists fragment,
    parse_type type_hint = Return fragment /\ is_constraint fragment = true.
Proof. exact (parse_type_is_constraint type_hint). Qed.

Lemma drop_last_snoc (x : string) (c : ascii) :
  drop_last (x ++ String c EmptyString) = x.
Proof.
  induction x as [|a x IH]; simpl; auto.
  rewrite IH. destruct (x ++ String c "") eqn:E; auto.
  destruct x; discriminate.
Qed.

Lemma char_in_app (c : ascii) (a b : string) :
  char_in c (a ++ b) = char_in c a || char_in c b.
Proof.
  unfold char_in. induction a as [|x a IH]; simpl; auto.
  rewrite IH. now rewrite orb_assoc.
Qed.

Lemma startswith_app (p s : string) : startswith (p ++ s) p = true.
Proof.
  unfold startswith. induction p as [|c p IH]; simpl.
  - now destruct s.
  - destruct (ascii_dec c c); [exact IH|contradiction].
Qed.

(** X2: the wrappers are transparent.  For a member text [x] without a
    union bar, [Optional[x]] gets the fragment of the scalar [x] and nothing
    about [null], [List[x]] gets the array of it, and both get the empty
    constraint when the scalar lookup rejects [x], as it does for a nested
    wrapper. *)
Theorem parse_type_wrappers (x : string) :
  char_in "|" x = false ->
  parse_type ("Optional[" ++ x ++ "]")
  = Return (match _lookup_scalar x with
            | Return t => scalar_fragment t
            | _ => PyDict []
            end)
  /\ parse_type ("List[" ++ x ++ "]")
     = Return (match _lookup_scalar x with
               | Return t => array_fragment t
               | _ => PyDict []
               end).
Proof.
  intros Hx. unfold parse_type, parse_type_body. split.
  - assert (Hbar : char_in "|" ("Optional[" ++ x ++ "]") = false).
    { rewrite !char_in_app, Hx. reflexivity. }
    rewrite Hbar.
    rewrite startswith_app.
    change (slice_to_last 9 ("Optional[" ++ x ++ "]")) with (drop_last (x ++ "]")).
    rewrite drop_last_snoc.
    destruct (lookup_scalar_cases x) as [[t ->]| ->]; reflexivity.
  - assert (Hbar : char_in "|" ("List[" ++ x ++ "]") = false).
    { rewrite !char_in_app, Hx. reflexivity. }
    rewrite Hbar.
    change (startswith ("List[" ++ x ++ "]") "Optional[") with false. cbv iota.
    rewrite startswith_app.
    change (slice_to_last 5 ("List[" ++ x ++ "]")) with (drop_last (x ++ "]")).
    rewrite drop_last_snoc.
    destruct (lookup_scalar_cases x) as [[t ->]| ->]; reflexivity.
Qed.

Lemma parse_type_wrappers_witness :
  parse_type "Optional[int]" = Return (scalar_fragment "number")
  /\ parse_type "List[int]" = Return (array_fragment "number").
Proof. apply (parse_type_wrappers "int"). reflexivity. Defined.

Lemma split_no_sep (c : ascii) (m : string) :
  char_in c m = false -> split c m = [m].
Proof.
  unfold char_in. induction m as [|a m IH]; simpl; auto.
  intros H. apply orb_false_iff in H as [Ha Hm].
  rewrite Ascii.eqb_sym, Ha. now rewrite IH.
Qed.

Lemma split_app_sep (c : ascii) (m rest : string) :
  char_in c m = false -> split c (m ++ String c rest) = m :: split c rest.
Proof.
  unfold char_in. induction m as [|a m IH]; simpl.
  - intros _. now rewrite Ascii.eqb_refl.
  - intros H. apply orb_false_iff in H as [Ha Hm].
    rewrite Ascii.eqb_sym, Ha. now rewrite IH.
Qed.

(** Splitting undoes joining, when no member holds the separator. *)
Lemma split_concat (c : ascii) (ms : list string) :
  ms <> [] ->
  Forall (fun m => char_in c m = false) ms ->
  split c (String.concat (String c EmptyString) ms) = ms.
Proof.
  induction ms as [|m ms IH]; [contradiction|]. intros _ H.
  inversion H as [|? ? Hm Hms]; subst.
  destruct ms as [|m' ms]; simpl.
  - now apply split_no_sep.
  - rewrite split_app_sep by exact Hm. f_equal. apply IH; auto. discriminate.
Qed.

Lemma char_in_concat (c : ascii) (ms : list string) :
  2 <= List.length ms -> char_in c (String.concat (String c EmptyString) ms) = true.
Proof.
  destruct ms as [|m [|m' ms]]; simpl; try lia. intros _.
  rewrite char_in_app. unfold char_in at 2. simpl.
  rewrite Ascii.eqb_refl. simpl. apply orb_true_r.
Qed.

Lemma mapM_Forall2 {A B} (f : A -> outcome B) (l : list A) (ys : list B) :
  Forall2 (fun x y => f x = Return y) l ys -> mapM f l = Return ys.
Proof.
  induction 1 as [|x y l ys Hx _ IH]; simpl; auto.
  now rewrite Hx, IH.
Qed.

Lemma mapM_lookup_rejects (g : string -> string) (l : list string) :
  Exists (fun m => _lookup_scalar (g m) = Raise ValueError) l ->
  mapM (fun m => _lookup_scalar (g m)) l = Raise ValueError.
Proof.
  induction 1 as [m l Hm|m l _ IH]; simpl.
  - now rewrite Hm.
  - destruct (lookup_scalar_cases (g m)) as [[t ->]| ->]; simpl; auto.
    now rewrite IH.
Qed.

(** X3: a union of two or more members, joined by bars, gets [anyOf] with
    one type per member, in the order of the members and with the blanks
    around each member ignored, when the scalar lookup knows every member;
    one member it rejects empties the whole fragment. *)
Theorem parse_type_union (ms : list string) :
  2 <= List.length ms ->
  Forall (fun m => char_in "|" m = false) ms ->
  (forall ts,
      Forall2 (fun m t => _lookup_scalar (strip m) = Return t) ms ts ->
      parse_type (String.concat "|" ms) = Return (any_of ts))
  /\ (Exists (fun m => _lookup_scalar (strip m) = Raise ValueError) ms ->
      parse_type (String.concat "|" ms) = Return (PyDict [])).
Proof.
  intros Hlen Hms.
  assert (Hsplit : split "|" (String.concat "|" ms) = ms).
  { apply split_concat; auto. destruct ms; simpl in Hlen; [lia|discriminate]. }
  unfold parse_type, parse_type_body.
  rewrite (char_in_concat "|" ms Hlen), Hsplit. split.
  - intros ts Hts. now rewrite (mapM_Forall2 _ _ _ Hts).
  - intros Hex. now rewrite (mapM_lookup_rejects strip ms Hex).
Qed.

Lemma parse_type_union_witness :
  parse_type "int | None  | str" = Return (any_of ["number"; "null"; "string"])
  /\ parse_type "int | Decimal" = Return (PyDict []).
Proof.
  split.
  - apply (proj1 (parse_type_union ["int "; " None  "; " str"]
                    ltac:(simpl; lia) ltac:(repeat constructor))).
    repeat constructor.
  - apply (proj2 (parse_type_union ["int "; " Decimal"]
                    ltac:(simpl; lia) ltac:(repeat constructor))).
    apply Exists_cons_tl. apply Exists_cons_hd. reflexivity.
Defined.

Lemma dict_set_new_key {A} (k : string) (v : A) (d : list (string * A)) :
  ~ In k (map fst d) -> map fst (dict_set k v d) = (map fst d ++ [k])%list.
Proof.
  induction d as [|[k' v'] rest IH]; simpl; auto.
  intros H. destruct (String.eqb_spec k k') as [->|Hne]; [tauto|].
  simpl. f_equal. apply IH. tauto.
Qed.

Lemma schema_loop_keys (fields : list Field) :
  forall properties required properties' required',
    NoDup (map fst properties ++ map name fields)%list ->
    schema_loop fields (properties, required) = Return (properties', required') ->
    map fst properties' = (map fst properties ++ map name fields)%list.
Proof.
  induction fields as [|f rest IH]; intros properties required properties' required' Hnd H.
  - simpl in H. injection H as <- <-. simpl. now rewrite app_nil_r.
  - destruct (schema_step_returns f properties required) as (c & _ & Hstep).
    cbn [schema_loop] in H. rewrite Hstep in H. cbn [bind] in H.
    assert (Hfresh : ~ In f.(name) (map fst properties)).
    { intros Hin. apply NoDup_remove_2 in Hnd. apply Hnd.
      apply in_or_app. now left. }
    apply IH in H.
    + rewrite H, dict_set_new_key by exact Hfresh.
      simpl. now rewrite <- app_assoc.
    + rewrite dict_set_new_key by exact Hfresh.
      rewrite <- app_assoc. exact Hnd.
Qed.

(** X4: for a dataclass, whose field names are distinct, the [properties]
    of the document list every field once, in declaration order. *)
Theorem generate_schema_properties_order (dc : DataClass) :
  NoDup (field_names dc) ->
  exists properties required,
    generate_schema dc = Return (schema_document properties required)
    /\ map fst properties = field_names dc.
Proof.
  intros Hnd. unfold generate_schema.
  destruct (schema_loop_returns dc.(__dataclass_fields__) [] [])
    as (properties & Hloop & _).
  rewrite Hloop. cbn [bind]. eexists _, _. split; [reflexivity|].
  exact (schema_loop_keys _ [] [] _ _ Hnd Hloop).
Qed.

Lemma generate_schema_properties_order_witness :
  exists properties required,
    generate_schema Car = Return (schema_document properties required)
    /\ map fst properties = ["brand"; "model"; "year"; "color"].
Proof.
  apply (generate_schema_properties_order Car).
  apply distinct_NoDup. reflexivity.
Defined.

(* ================================================================= *)
(** ** The widget and the form field built by [formfield] *)

Lemma dict_get_absent {A} (k : string) (d : list (string * A)) :
  ~ In k (map fst d) -> dict_get k d = None.
Proof.
  induction d as [|[k' v'] rest IH]; simpl; auto.
  intros H. destruct (String.eqb_spec k k') as [->|Hne]; [tauto|]. apply IH. tauto.
Qed.

(** Lookup after [update]: the other dict wins, the rest is kept. *)
Lemma dict_get_update {A} (k : string) (other : list (string * A)) :
  forall d,
    NoDup (map fst other) ->
    dict_get k (dict_update d other)
    = match dict_get k other with
      | Some v => Some v
      | None => dict_get k d
      end.
Proof.
  unfold dict_update.
  induction other as [|[k0 v0] rest IH]; intros d Hnd; simpl; auto.
  inversion Hnd as [|? ? Hfresh Hrest]; subst.
  rewrite IH by exact Hrest.
  destruct (String.eqb_spec k k0) as [->|Hne].
  - rewrite (dict_get_absent k0 rest Hfresh). apply dict_get_set_same.
  - now rewrite dict_get_set_other.
Qed.

(** X6: the widget keeps every attribute it is given, and the sizing hints
    [cols = 40] and [rows = 20] for the keys the caller leaves out; without
    attributes, or with an empty dict of them, it has the two hints only. *)
Theorem widget_attrs_override_defaults (given : list (string * pyval)) (k : string) :
  NoDup (map fst given) ->
  dict_get k (JSONWidget.__init__ (Some given))
  = match dict_get k given with
    | Some v => Some v
    | None => dict_get k [("cols", PyStr "40"); ("rows", PyStr "20")]
    end
  /\ JSONWidget.__init__ None = [("cols", PyStr "40"); ("rows", PyStr "20")]
  /\ JSONWidget.__init__ (Some []) = [("cols", PyStr "40"); ("rows", PyStr "20")].
Proof.
  intros Hnd. split; [|split; reflexivity].
  unfold JSONWidget.__init__, Django.Widget_init.
  destruct given as [|kv given]; [reflexivity|].
  exact (dict_get_update k (kv :: given) _ Hnd).
Qed.

Lemma widget_attrs_override_defaults_witness :
  dict_get "rows" (JSONWidget.__init__ (Some [("rows", PyStr "5"); ("id", PyStr "car")]))
  = Some (PyStr "5")
  /\ dict_get "cols" (JSONWidget.__init__ (Some [("rows", PyStr "5"); ("id", PyStr "car")]))
     = Some (PyStr "40").
Proof.
  assert (Hnd : NoDup (map fst [("rows", PyStr "5"); ("id", PyStr "car")])).
  { apply distinct_NoDup. reflexivity. }
  split.
  - exact (proj1 (widget_attrs_override_defaults _ "rows" Hnd)).
  - exact (proj1 (widget_attrs_override_defaults _ "cols" Hnd)).
Defined.

Section MapMCases.
Context {A B : Type}.
Variable f : A -> outcome B.
Variable ok : A -> bool.
Variable e : exn.

Lemma mapM_cases (l : list A) :
  Forall (fun x => (ok x = true -> exists y, f x = Return y)
                   /\ (ok x = false -> f x = Raise e)) l ->
  (forallb ok l = true -> exists ys, mapM f l = Return ys)
  /\ (forallb ok l = false -> mapM f l = Raise e).
Proof.
  induction 1 as [|x l [Hok Hbad] _ [IHok IHbad]]; simpl.
  - split; [eauto|discriminate].
  - destruct (ok x) eqn:Ex; simpl.
    + destruct (Hok eq_refl) as [y ->]. simpl. split.
      * intros Hl. destruct (IHok Hl) as [ys ->]. simpl. eauto.
      * intros Hl. now rewrite (IHbad Hl).
    + rewrite (Hbad eq_refl). simpl. split; [discriminate|reflexivity].
Qed.
End MapMCases.

(** The encoder returns a text for a serializable value and raises
    [TypeError] for any other, whatever its options. *)
Lemma dumps_with_cases (sort_keys ensure_ascii : bool) (v : pyval) :
  (serializable v = true -> exists s, Json.dumps_with sort_keys ensure_ascii v = Return s)
  /\ (serializable v = false -> Json.dumps_with sort_keys ensure_ascii v = Raise TypeError).
Proof.
  induction v as [|b|z|s|s|l IH|l IH|kvs IH|c kvs IH] using pyval_deep_ind;
    cbn [Json.dumps_with serializable].
  - split; [eauto|discriminate].
  - split; [destruct b; eauto|discriminate].
  - split; [eauto|discriminate].
  - split; [eauto|discriminate].
  - split; [eauto|discriminate].
  - destruct (mapM_cases (Json.dumps_with sort_keys ensure_ascii) serializable TypeError l IH)
      as [Hok Hbad].
    split; intros H.
    + destruct (Hok H) as [ys ->]. simpl. eauto.
    + now rewrite (Hbad H).
  - destruct (mapM_cases (Json.dumps_with sort_keys ensure_ascii) serializable TypeError l IH)
      as [Hok Hbad].
    split; intros H.
    + destruct (Hok H) as [ys ->]. simpl. eauto.
    + now rewrite (Hbad H).
  - destruct (mapM_cases
                (fun kv => s <- Json.dumps_with sort_keys ensure_ascii (snd kv) ;;
                           Return (fst kv, s))
                (fun kv => serializable (snd kv)) TypeError kvs) as [Hok Hbad].
    { rewrite Forall_forall in *. intros kv Hin. destruct (IH kv Hin) as [H1 H2].
      split; intros H.
      - destruct (H1 H) as [s ->]. simpl. eauto.
      - now rewrite (H2 H). }
    split; intros H.
    + destruct (Hok H) as [ys ->]. simpl. eauto.
    + now rewrite (Hbad H).
  - split; [discriminate|reflexivity].
Qed.

Lemma scalar_fragment_serializable (v : pyval) :
  is_scalar_fragment v = true -> serializable v = true.
Proof.
  intros H. destruct v as [| | | | | | |kvs|]; simpl in H; try discriminate H.
  destruct kvs as [|[k x] rest]; simpl in H; try discriminate H.
  destruct x, rest; simpl in H; try discriminate H. reflexivity.
Qed.

Lemma scalar_fragments_serializable (frs : list pyval) :
  forallb is_scalar_fragment frs = true -> forallb serializable frs = true.
Proof.
  induction frs as [|fr frs IH]; simpl; auto.
  intros H. apply andb_true_iff in H as [H1 H2].
  rewrite (scalar_fragment_serializable fr H1). auto.
Qed.

Lemma constraint_serializable (v : pyval) :
  is_constraint v = true -> serializable v = true.
Proof.
  intros H. destruct v as [| | | | | | |kvs|]; simpl in H; try discriminate H.
  destruct kvs as [|[k x] [|[k2 y] rest]]; auto.
  - destruct x; simpl in H; try discriminate H; auto.
    apply andb_true_iff in H as [_ H]. simpl.
    now rewrite (scalar_fragments_serializable _ H).
  - destruct x, rest; simpl in H; try discriminate H.
    repeat (apply andb_true_iff in H as [H ?]). simpl.
    rewrite scalar_fragment_serializable by assumption. reflexivity.
Qed.

Lemma dict_set_serializable (k : string) (v : pyval) (d : list (string * pyval)) :
  serializable v = true ->
  forallb (fun kv => serializable (snd kv)) d = true ->
  forallb (fun kv => serializable (snd kv)) (dict_set k v d) = true.
Proof.
  intros Hv. induction d as [|[k' v'] rest IH]; simpl.
  - now rewrite Hv.
  - intros H. apply andb_true_iff in H as [H1 H2].
    destruct (String.eqb k k'); simpl; rewrite ?Hv, ?H1; simpl; auto.
Qed.

Lemma dict_set_unserializable (k : string) (v : pyval) (d : list (string * pyval)) :
  serializable v = false ->
  forallb (fun kv => serializable (snd kv)) (dict_set k v d) = false.
Proof.
  intros Hv. induction d as [|[k' v'] rest IH]; simpl.
  - now rewrite Hv.
  - destruct (String.eqb k k'); simpl; rewrite ?Hv, ?IH; auto using andb_false_r.
Qed.

Lemma dict_get_unserializable (k : string) (v : pyval) (d : list (string * pyval)) :
  dict_get k d = Some v -> serializable v = false ->
  forallb (fun kv => serializable (snd kv)) d = false.
Proof.
  intros Hget Hv. induction d as [|[k' v'] rest IH]; simpl in *; [discriminate|].
  destruct (String.eqb k k').
  - injection Hget as ->. now rewrite Hv.
  - rewrite IH by exact Hget. apply andb_false_r.
Qed.

Lemma parse_type_serializable (type_hint : string) (constraint : list (string * pyval)) :
  parse_type type_hint = Return (PyDict constraint) ->
  forallb (fun kv => serializable (snd kv)) constraint = true.
Proof.
  intros H. destruct (parse_type_is_constraint type_hint) as (v & Hv & Hc).
  rewrite H in Hv. injection Hv as <-. exact (constraint_serializable _ Hc).
Qed.

Lemma schema_loop_serializable (fields : list Field) :
  forall properties required properties' required',
    forallb default_serializable fields = true ->
    forallb (fun kv => serializable (snd kv)) properties = true ->
    forallb serializable required = true ->
    schema_loop fields (properties, required) = Return (properties', required') ->
    forallb (fun kv => serializable (snd kv)) properties' = true
    /\ forallb serializable required' = true.
Proof.
  induction fields as [|f rest IH];
    intros properties required properties' required' Hd Hp Hr H.
  - simpl in H. injection H as <- <-. auto.
  - destruct (schema_step_returns f properties required) as (c & Hc & Hstep).
    cbn [schema_loop] in H. rewrite Hstep in H. cbn [bind] in H.
    simpl in Hd. apply andb_true_iff in Hd as [Hf Hd].
    apply IH in H; auto.
    + apply dict_set_serializable; auto.
      unfold with_default. unfold default_serializable in Hf.
      pose proof (parse_type_serializable _ _ Hc) as Hcs.
      destruct f.(default); simpl; auto. now apply dict_set_serializable.
    + rewrite forallb_app, Hr. simpl. destruct f.(init); reflexivity.
Qed.

(** A schema from [generate_schema] is what [formfield] works with: the
    fallback to the empty schema is not taken for a dataclass. *)
Lemma formfield_schema_generated (dc : DataClass) :
  formfield_schema dc = generate_schema dc.
Proof.
  unfold formfield_schema.
  destruct (generate_schema_returns dc) as (properties & -> & _). reflexivity.
Qed.

(** X5: [formfield] never falls back to the empty schema for a dataclass.
    When every default can be serialized, the widget of the form field
    carries the two sizing hints and, under [schema], the text that
    [json.dumps] gives for the document [generate_schema] returns; when one
    default cannot, the [TypeError] of [json.dumps] leaves [formfield]. *)
Theorem formfield_widget_schema (dc : DataClass) :
  NoDup (field_names dc) ->
  (exists properties required,
      formfield_schema dc = Return (schema_document properties required)
      /\ generate_schema dc = Return (schema_document properties required))
  /\ (forallb default_serializable dc.(__dataclass_fields__) = true ->
      exists properties required text,
        generate_schema dc = Return (schema_document properties required)
        /\ Json.dumps_with false true (schema_document properties required) = Return text
        /\ formfield dc
           = Return [("cols", PyStr "40"); ("rows", PyStr "20"); ("schema", PyStr text)])
  /\ (forallb default_serializable dc.(__dataclass_fields__) = false ->
      formfield dc = Raise TypeError).
Proof.
  intros Hnd.
  destruct (generate_schema_returns dc) as (properties & Hgen & Hfind).
  pose proof (formfield_schema_generated dc) as Hff.
  split; [|split].
  - eexists _, _. rewrite Hff. eauto.
  - intros Hd.
    destruct (proj1 (dumps_with_cases false true
                       (schema_document properties
                          (map PyStr (map name (filter init dc.(__dataclass_fields__)))))))
      as [text Htext].
    + pose proof Hgen as Hgen'. unfold generate_schema in Hgen'.
      destruct (schema_loop dc.(__dataclass_fields__) ([], []))
        as [[props req]| |] eqn:Hloop; try discriminate.
      cbn [bind] in Hgen'. injection Hgen' as <- <-.
      destruct (schema_loop_serializable _ [] [] _ _ Hd eq_refl eq_refl Hloop)
        as [Hp Hr].
      cbn [serializable schema_document forallb snd]. now rewrite Hp, Hr.
    + eexists _, _, text. split; [exact Hgen|]. split; [exact Htext|].
      unfold formfield. rewrite Hff, Hgen. cbn [bind].
      unfold DataClassFormField.__init__. rewrite Htext. reflexivity.
  - intros Hd. unfold formfield. rewrite Hff, Hgen. cbn [bind].
    unfold DataClassFormField.__init__.
    rewrite (proj2 (dumps_with_cases false true _)); [reflexivity|].
    assert (Hex : exists f, In f dc.(__dataclass_fields__)
                            /\ default_serializable f = false).
    { clear -Hd. induction dc.(__dataclass_fields__) as [|f l IH]; simpl in Hd;
        [discriminate|].
      destruct (default_serializable f) eqn:E.
      - destruct (IH Hd) as (g & Hin & Hg). exists g. split; auto. now right.
      - exists f. split; auto. now left. }
    destruct Hex as (f & Hin & Hf).
    destruct (Hfind Hnd f Hin) as (c & _ & Hget).
    cbn [serializable schema_document forallb snd].
    rewrite (dict_get_unserializable _ _ _ Hget); [reflexivity|].
    unfold with_default. unfold default_serializable in Hf.
    destruct f.(default); [|discriminate].
    cbn [serializable]. now apply dict_set_unserializable.
Qed.

(* ================================================================= *)
(** ** The decoder raises one kind of exception *)

Lemma bind_raise_inv {A B} (m : outcome A) (k : A -> outcome B) (e : exn) :
  bind m k = Raise e -> m = Raise e \/ exists a, m = Return a /\ k a = Raise e.
Proof. destruct m; simpl; try discriminate; eauto. intros H. left. congruence. Qed.

Lemma scanstring_raises (n : nat) :
  forall s e, String.length s <= n -> Json.scanstring s = Raise e -> e = JSONDecodeError.
Proof.
  induction n as [|n IH]; intros s e Hn H.
  - destruct s; simpl in *; [congruence|lia].
  - destruct s as [|c rest]; simpl in *; [congruence|].
    destruct (Ascii.eqb c Json.dquote); [discriminate|].
    destruct (Ascii.eqb c Json.backslash).
    { destruct rest as [|esc rest']; [congruence|]. simpl in Hn.
      destruct (Ascii.eqb esc "u").
      - destruct rest' as [|h1 [|h2 [|h3 [|h4 rest'']]]]; try congruence.
        simpl in Hn.
        destruct (Json.decode_uXXXX h1 h2 h3 h4) as [uni|]; [|congruence].
        destruct (uni <? 256)%N; [|discriminate].
        apply bind_raise_inv in H as [H|([str r] & _ & H)]; [|discriminate].
        apply IH in H; auto. lia.
      - destruct (Json.unescape esc); [|congruence].
        apply bind_raise_inv in H as [H|([str r] & _ & H)]; [|discriminate].
        apply IH in H; auto. lia. }
    destruct (N_of_ascii c <? 32)%N; [congruence|].
    apply bind_raise_inv in H as [H|([str r] & _ & H)]; [|discriminate].
    apply IH in H; auto. lia.
Qed.

Section ScanRaises.
Variable scan : string -> outcome (pyval * string).
Hypothesis scan_raises : forall s e, scan s = Raise e -> e = JSONDecodeError.

Lemma array_items_raises (fuel : nat) :
  forall s e, Json.array_items scan fuel s = Raise e -> e = JSONDecodeError.
Proof.
  induction fuel as [|fuel IH]; simpl; intros s e H; [discriminate|].
  apply bind_raise_inv in H as [H|([value r] & _ & H)]; [eauto|].
  destruct (Json.skip_ws r) as [|c r']; [congruence|].
  destruct (Ascii.eqb c "]"); [discriminate|].
  destruct (Ascii.eqb c ","); [|congruence].
  apply bind_raise_inv in H as [H|([values r''] & _ & H)]; [eauto|discriminate].
Qed.

Lemma object_pairs_raises (fuel : nat) :
  forall s e, Json.object_pairs scan fuel s = Raise e -> e = JSONDecodeError.
Proof.
  induction fuel as [|fuel IH]; simpl; intros s e H; [discriminate|].
  apply bind_raise_inv in H as [H|([key r0] & _ & H)].
  { eapply scanstring_raises; eauto. }
  destruct (Json.skip_ws r0) as [|c r1]; [congruence|].
  destruct c as [[] [] [] [] [] [] [] []]; try congruence.
  apply bind_raise_inv in H as [H|([value r2] & _ & H)]; [eauto|].
  destruct (Json.skip_ws r2) as [|c r3]; [congruence|].
  destruct (Ascii.eqb c "}"); [discriminate|].
  destruct (Ascii.eqb c ","); [|congruence].
  destruct (Json.skip_ws r3) as [|q r4]; [congruence|].
  destruct (Ascii.eqb q Json.dquote); [|congruence].
  apply bind_raise_inv in H as [H|([pairs r5] & _ & H)]; [eauto|discriminate].
Qed.
End ScanRaises.

Lemma scan_once_raises (fuel : nat) :
  forall s e, Json.scan_once fuel s = Raise e -> e = JSONDecodeError.
Proof.
  induction fuel as [|fuel IH]; simpl; intros s e H; [discriminate|].
  destruct s as [|c rest]; [congruence|].
  destruct (Ascii.eqb c Json.dquote).
  { apply bind_raise_inv in H as [H|([str r] & _ & H)]; [|discriminate].
    eapply scanstring_raises; eauto. }
  destruct (Ascii.eqb c "{").
  { unfold Json.JSONObject in H.
    destruct (Json.skip_ws rest) as [|c' r0]; [congruence|].
    destruct (Ascii.eqb c' "}"); [discriminate|].
    destruct (Ascii.eqb c' Json.dquote); [|congruence].
    apply bind_raise_inv in H as [H|([pairs r1] & _ & H)]; [|discriminate].
    eapply object_pairs_raises; eauto. }
  destruct (Ascii.eqb c "[").
  { unfold Json.JSONArray in H.
    assert (Hitems : forall s', (vs_r <- Json.array_items (Json.scan_once fuel) fuel s' ;;
                                 (let '(values, r0) := vs_r in Return (PyList values, r0)))
                                = Raise e -> e = JSONDecodeError).
    { intros s' H'. apply bind_raise_inv in H' as [H'|([vs r0] & _ & H')];
        [|discriminate]. eapply array_items_raises; eauto. }
    destruct (Json.skip_ws rest) as [|c' r0]; [eauto|].
    destruct c' as [[] [] [] [] [] [] [] []]; eauto. discriminate. }
  destruct (startswith (String c rest) "null"); [discriminate|].
  destruct (startswith (String c rest) "true"); [discriminate|].
  destruct (startswith (String c rest) "false"); [discriminate|].
  destruct (Json.match_integer (String c rest)) as [[n r0]|].
  - destruct (Json.has_frac r0 || Json.has_exp r0); discriminate.
  - destruct (_ || _); congruence.
Qed.

(** Text that [loads] does not take makes it raise [JSONDecodeError] and
    nothing else. *)
Lemma loads_raises (s : string) (e : exn) :
  Json.loads s = Raise e -> e = JSONDecodeError.
Proof.
  unfold Json.loads. intros H.
  apply bind_raise_inv in H as [H|([obj rest] & _ & H)].
  - eapply scan_once_raises; eauto.
  - destruct (Json.skip_ws rest); congruence.
Qed.

Lemma json_value_serializable (v : pyval) : json_value v = true -> serializable v = true.
Proof.
  induction v as [|b|z|s|s|l IH|l IH|kvs IH|c kvs IH] using pyval_deep_ind;
    simpl; intros Hv; try discriminate; auto.
  - rewrite forallb_forall in *. rewrite Forall_forall in IH. auto.
  - apply andb_true_iff in Hv as [_ Hv].
    rewrite forallb_forall in *. rewrite Forall_forall in IH. auto.
Qed.

(* ================================================================= *)
(** ** Further properties of the form field *)

(** X7: on a field that is not disabled, [to_python] never returns a bare
    string, a tuple or an instance of a dataclass (of one that extends none
    of the types the method passes through): a string it returns is always
    the tagged one. *)
Theorem form_to_python_returns_no_bare_string (value r : pyval) :
  DataClassFormField.to_python false value = Return r ->
  match r with
  | PyStr _ | PyTuple _ | PyInstance _ _ => False
  | _ => True
  end.
Proof.
  unfold DataClassFormField.to_python.
  destruct (py_in value Django.EMPTY_VALUES).
  { intros H. injection H as <-. exact I. }
  destruct (DataClassFormField.is_native value) eqn:En.
  { intros H. injection H as <-. destruct value; try discriminate En; exact I. }
  destruct value; try discriminate.
  destruct (Json.loads s) as [c|e|] eqn:El; [|destruct e; discriminate|discriminate].
  pose proof (loads_json_value s c El) as Hc.
  destruct c; simpl in Hc; try discriminate; intros H; injection H as <-; exact I.
Qed.

Lemma form_to_python_returns_no_bare_string_witness :
  DataClassFormField.to_python false (PyStr (Json.text "'Ford'")) = Return (JSONString "Ford")
  /\ match JSONString "Ford" with
     | PyStr _ | PyTuple _ | PyInstance _ _ => False
     | _ => True
     end.
Proof.
  split; [reflexivity|].
  exact (form_to_python_returns_no_bare_string
           (PyStr (Json.text "'Ford'")) (JSONString "Ford") eq_refl).
Defined.

(** X8: on a field that is not disabled, text that is not empty and does
    not decode is always reported as a change, whatever the initial value. *)
Theorem has_changed_on_malformed_text (initial : pyval) (s : string) :
  s <> "" ->
  Json.loads s = Raise JSONDecodeError ->
  DataClassFormField.has_changed false initial (PyStr s) = Return true.
Proof.
  intros Hs Hl.
  unfold DataClassFormField.has_changed, Django.JSONField_has_changed,
    Django.Field_has_changed.
  now rewrite (form_to_python_rejects s Hs Hl).
Qed.

Lemma has_changed_on_malformed_text_witness :
  DataClassFormField.has_changed false ab_mapping (PyStr "{not json") = Return true.
Proof.
  apply (has_changed_on_malformed_text ab_mapping "{not json");
    [discriminate|reflexivity].
Defined.

(** X9: with an instance of a dataclass as the initial value, which is what
    a model form gives the field, [has_changed] never answers [False]: the
    instance is equal to nothing [to_python] returns and cannot be
    serialized; on a disabled field the [TypeError] of [json.dumps] is
    raised. *)
Theorem has_changed_with_instance_initial (disabled : bool) (cls : string)
    (attrs : list (string * pyval)) (data : pyval) :
  DataClassFormField.has_changed disabled (PyInstance cls attrs) data <> Return false
  /\ DataClassFormField.has_changed true (PyInstance cls attrs) data = Raise TypeError.
Proof.
  split; [|reflexivity].
  intros H. apply has_changed_false_iff in H as (_ & a & value & Ha & _).
  discriminate Ha.
Qed.

(** X10: on a field that is not disabled, text for which the parser reports
    a decode error comes back from [bound_data] tagged, not raised, and
    [prepare_value] hands the tagged text back to the widget as it was
    typed; text the parser decodes comes back as its value, and
    [prepare_value] gives for that value the text the encoder gives for
    it, keys in their order and characters unescaped. *)
Theorem bound_data_redisplays_text (s : string) (initial : pyval) :
  (Json.loads s = Raise JSONDecodeError ->
   DataClassFormField.bound_data false (PyStr s) initial
   = Return (Django.InvalidJSONInput s)
   /\ DataClassFormField.prepare_value (Django.InvalidJSONInput s)
      = Return (Django.InvalidJSONInput s))
  /\ (forall v,
        Json.loads s = Return v ->
        DataClassFormField.bound_data false (PyStr s) initial = Return (Django.Plain v)
        /\ forall text,
             Json.dumps_with false false v = Return text ->
             DataClassFormField.prepare_value (Django.Plain v)
             = Return (Django.Plain (PyStr text))).
Proof.
  unfold DataClassFormField.bound_data. split.
  - intros ->. split; reflexivity.
  - intros v El. rewrite El. split; [reflexivity|].
    intros text Htext.
    pose proof (loads_json_value s v El) as Hv.
    unfold DataClassFormField.prepare_value.
    destruct v; simpl in Hv; try discriminate; cbn [bind]; now rewrite Htext.
Qed.

(* ================================================================= *)
(** ** Further properties of the model field *)

Lemma from_dict_returns_instance (dc : DataClass) (data : pyval) (config : Dacite.Config)
    (r : pyval) :
  Dacite.from_dict dc data config = Return r -> is_instance_of r dc = true.
Proof.
  unfold Dacite.from_dict. intros H.
  apply bind_return_inv in H as (attrs & _ & H). injection H as <-.
  simpl. apply String.eqb_refl.
Qed.

Lemma to_python_returns_instance (dc : DataClass) (value r : pyval) :
  DataClassField.to_python dc value = Return r ->
  r = PyNone \/ is_instance_of r dc = true.
Proof.
  unfold DataClassField.to_python. intros H.
  destruct (is_instance_of value dc) eqn:Ei.
  { destruct value; injection H as <-; auto. }
  assert (Hfrom : forall obj,
             match Dacite.from_dict dc obj Dacite.default_config with
             | Raise (ValidationError _ _ _) =>
                 Raise (ValidationError (DataClassField.type_message dc) "invalid" value)
             | Raise (MissingValueError _) =>
                 Raise (ValidationError (DataClassField.type_message dc) "invalid" value)
             | r0 => r0
             end = Return r -> is_instance_of r dc = true).
  { intros obj H'.
    destruct (Dacite.from_dict dc obj Dacite.default_config) as [r0|[]|] eqn:E;
      try discriminate.
    injection H' as <-. eapply from_dict_returns_instance; eauto. }
  destruct value; try (injection H as <-; now left);
    try (apply bind_return_inv in H as (obj & _ & H); right; eapply Hfrom; eauto).
Qed.

(** X11: whatever it is given, the model field hands back [None] or an
    instance of its dataclass, on assignment ([to_python]) and on read
    ([from_db_value]) alike. *)
Theorem model_field_returns_instance_or_none (dc : DataClass) (value r : pyval) :
  (DataClassField.to_python dc value = Return r ->
   r = PyNone \/ is_instance_of r dc = true)
  /\ (DataClassField.from_db_value dc value = Return r ->
      r = PyNone \/ is_instance_of r dc = true).
Proof.
  split; [apply to_python_returns_instance|].
  unfold DataClassField.from_db_value. intros H.
  apply bind_return_inv in H as (from_db & _ & H).
  destruct from_db; try (injection H as <-; now left);
    right; eapply from_dict_returns_instance; eauto.
Qed.

Lemma model_field_returns_instance_or_none_witness :
  ford = PyNone \/ is_instance_of ford Car = true.
Proof.
  apply (proj1 (model_field_returns_instance_or_none Car (PyDict ford_attrs) ford)).
  reflexivity.
Defined.

(** X12: [validate] accepts exactly the values [to_python] leaves as they
    are: it does not hydrate, so a mapping that [to_python] would turn into
    an instance is rejected. *)
Theorem validate_accepts_fixed_points (dc : DataClass) (value : pyval) :
  DataClassField.validate dc value = Return tt
  <-> DataClassField.to_python dc value = Return value.
Proof.
  split.
  - unfold DataClassField.validate, DataClassField.to_python.
    destruct value; auto; destruct (is_instance_of _ dc); auto; discriminate.
  - intros H. destruct (to_python_returns_instance dc value value H) as [->|Hi].
    + reflexivity.
    + unfold DataClassField.validate. rewrite Hi. now destruct value.
Qed.

Lemma dict_item_raises (x : pyval) (e : exn) :
  Dacite.dict_item x = Raise e -> e = TypeError \/ e = ValueError.
Proof.
  unfold Dacite.dict_item.
  destruct x as [| | |s|s|l|l|kvs|]; try (intros H; injection H as <-; auto).
  - destruct s as [|a [|b [|]]]; intros H; try discriminate; injection H as <-; auto.
  - destruct s as [|a [|b [|]]]; intros H; try discriminate; injection H as <-; auto.
  - destruct l as [|k [|v [|]]]; try (intros H; injection H as <-; now auto).
    destruct k; intros H; try discriminate; injection H as <-; auto.
  - destruct l as [|k [|v [|]]]; try (intros H; injection H as <-; now auto).
    destruct k; intros H; try discriminate; injection H as <-; auto.
  - destruct kvs as [|[k1 v1] [|[k2 v2] [|]]]; intros H; try discriminate;
      injection H as <-; auto.
Qed.

Lemma mapM_raises {A B} (f : A -> outcome B) (P : exn -> Prop) (l : list A) (e : exn) :
  (forall x e, f x = Raise e -> P e) -> mapM f l = Raise e -> P e.
Proof.
  intros Hf. induction l as [|x l IH]; simpl; [discriminate|].
  intros H. apply bind_raise_inv in H as [H|(y & _ & H)]; [eauto|].
  apply bind_raise_inv in H as [H|(ys & _ & H)]; [eauto|discriminate].
Qed.

Lemma py_dict_raises (data : pyval) (e : exn) :
  Dacite.py_dict data = Raise e -> hydration_error e.
Proof.
  assert (Hitems : forall l, mapM Dacite.dict_item l = Raise e -> hydration_error e).
  { intros l H. apply (mapM_raises Dacite.dict_item (fun e => e = TypeError \/ e = ValueError))
      in H; [destruct H as [-> | ->]; exact I|apply dict_item_raises]. }
  unfold Dacite.py_dict.
  destruct data as [| | |s|s|l|l|kvs|]; try (intros H; injection H as <-; exact I);
    try discriminate.
  - destruct s; intros H; [discriminate|injection H as <-; exact I].
  - destruct s; intros H; [discriminate|injection H as <-; exact I].
  - intros H. apply bind_raise_inv in H as [H|(y & _ & H)]; [eauto|discriminate].
  - intros H. apply bind_raise_inv in H as [H|(y & _ & H)]; [eauto|discriminate].
Qed.

Lemma apply_cast_raises (casts : list Dacite.cast_type) (t : pytype) (data : pyval)
    (e : exn) :
  Dacite.apply_cast casts t data = Raise e -> hydration_error e.
Proof.
  induction casts as [|ct casts IH]; simpl; [discriminate|].
  destruct (Dacite.is_subclass t ct); auto. apply py_dict_raises.
Qed.

Lemma build_value_raises (t : pytype) (data : pyval) (config : Dacite.Config) (e : exn) :
  Dacite._build_value t data config = Raise e -> hydration_error e.
Proof.
  destruct t; simpl; try discriminate; try apply apply_cast_raises.
  destruct data; try discriminate; apply apply_cast_raises.
Qed.

(** Hydration raises neither a validation error nor a decode error. *)
Lemma build_fields_raises (fields : list Field) (data : pyval) (config : Dacite.Config)
    (e : exn) :
  Dacite.build_fields fields data config = Raise e -> hydration_error e.
Proof.
  induction fields as [|f rest IH]; simpl; [discriminate|].
  intros H. apply bind_raise_inv in H as [H|(present & _ & H)].
  { destruct data; simpl in H; try discriminate; injection H as <-; exact I. }
  destruct present.
  - apply bind_raise_inv in H as [H|(field_data & _ & H)].
    { destruct data; simpl in H; try discriminate; try (injection H as <-; exact I).
      destruct (dict_get (name f) kvs); [discriminate|injection H as <-; exact I]. }
    apply bind_raise_inv in H as [H|(value & _ & H)].
    { eapply build_value_raises; eauto. }
    destruct (Dacite.is_instance value (hint (type f))).
    + apply bind_raise_inv in H as [H|(attrs & _ & H)]; [auto|discriminate].
    + injection H as <-. exact I.
  - destruct (Dacite.get_default_value_for_field f (hint (type f))).
    + apply bind_raise_inv in H as [H|(attrs & _ & H)]; [auto|discriminate].
    + destruct (init f); [injection H as <-; exact I|auto].
Qed.

(** X13: every validation error that leaves [to_python] is the uniform
    one: the message names the dataclass, the code is [invalid] and the
    params hold the value that was given, not the decoded one. *)
Theorem to_python_validation_error_is_uniform (dc : DataClass) (value : pyval)
    (message code : string) (param : pyval) :
  DataClassField.to_python dc value = Raise (ValidationError message code param) ->
  message = "Value must be of type " ++ dc.(__name__)
  /\ code = "invalid" /\ param = value.
Proof.
  unfold DataClassField.to_python. intros H.
  assert (Hfrom : forall obj,
             match Dacite.from_dict dc obj Dacite.default_config with
             | Raise (ValidationError _ _ _) =>
                 Raise (ValidationError (DataClassField.type_message dc) "invalid" value)
             | Raise (MissingValueError _) =>
                 Raise (ValidationError (DataClassField.type_message dc) "invalid" value)
             | r0 => r0
             end = Raise (ValidationError message code param) ->
             message = "Value must be of type " ++ dc.(__name__)
             /\ code = "invalid" /\ param = value).
  { intros obj H'. unfold Dacite.from_dict in H'.
    destruct (Dacite.build_fields (__dataclass_fields__ dc) obj Dacite.default_config)
      as [attrs|e|] eqn:E; simpl in H'; try discriminate.
    pose proof (build_fields_raises _ _ _ _ E) as He.
    destruct e; simpl in He; try contradiction; try discriminate.
    injection H' as <- <- <-. auto. }
  destruct (is_instance_of value dc).
  { destruct value; discriminate. }
  destruct value; try discriminate;
    try (apply bind_raise_inv in H as [H|(obj & _ & H)]; [|eapply Hfrom; eauto]);
    try discriminate.
  - apply loads_raises in H. discriminate.
  - apply loads_raises in H. discriminate.
Qed.

Lemma to_python_validation_error_is_uniform_witness :
  "Value must be of type Car" = "Value must be of type " ++ Car.(__name__)
  /\ "invalid" = "invalid" /\ PyStr brand_only_text = PyStr brand_only_text.
Proof.
  apply (to_python_validation_error_is_uniform Car (PyStr brand_only_text)).
  reflexivity.
Defined.

(** X14: [get_prep_value] is a gate: it returns only for [None] and for a
    value that [to_python] accepts; an instance goes to the storage
    conversion as its mapping, any other accepted value as it was given,
    not as hydrated, and a value [to_python] refuses never reaches the
    storage conversion. *)
Theorem get_prep_value_is_a_gate (prep : pyval -> outcome pyval) (dc : DataClass)
    (value : pyval) :
  (forall out,
      DataClassField.get_prep_value prep dc value = Return out ->
      value = PyNone \/ exists r, DataClassField.to_python dc value = Return r)
  /\ (is_instance_of value dc = true ->
      DataClassField.get_prep_value prep dc value = prep (_asdict_inner value))
  /\ (value <> PyNone -> is_instance_of value dc = false ->
      forall r, DataClassField.to_python dc value = Return r ->
                DataClassField.get_prep_value prep dc value = prep value)
  /\ (forall e, DataClassField.to_python dc value = Raise e ->
                DataClassField.get_prep_value prep dc value = Raise e).
Proof.
  unfold DataClassField.get_prep_value. split; [|split; [|split]].
  - intros out H. destruct (is_instance_of value dc) eqn:Ei.
    + right. exists value. unfold DataClassField.to_python. rewrite Ei.
      now destruct value.
    + destruct value; auto; right; simpl in H;
        apply bind_return_inv in H as (r & Hr & _); eauto.
  - intros Hi. rewrite Hi. destruct value; try discriminate. reflexivity.
  - intros Hn Hi r Hr. rewrite Hi.
    destruct value; try congruence; cbn [negb]; now rewrite Hr.
  - intros e He. destruct (is_instance_of value dc) eqn:Ei.
    + unfold DataClassField.to_python in He. rewrite Ei in He.
      destruct value; discriminate.
    + destruct value; try discriminate; cbn [negb]; now rewrite He.
Qed.

Lemma dict_has_get {A} (k : string) (d : list (string * A)) :
  dict_has k d = match dict_get k d with Some _ => true | None => false end.
Proof.
  unfold dict_has, dict_keys. induction d as [|[k' v'] rest IH]; simpl; auto.
  destruct (String.eqb k k'); simpl; auto.
Qed.

(** Hydration reads the data under the names of the fields only. *)
Lemma build_fields_same_lookups (config : Dacite.Config) (fields : list Field)
    (kvs kvs' : list (string * pyval)) :
  (forall f, In f fields -> dict_get f.(name) kvs' = dict_get f.(name) kvs) ->
  Dacite.build_fields fields (PyDict kvs') config
  = Dacite.build_fields fields (PyDict kvs) config.
Proof.
  induction fields as [|f rest IH]; intros H; simpl; auto.
  rewrite !dict_has_get, (H f (or_introl eq_refl)).
  rewrite IH by (intros g Hg; apply H; now right). reflexivity.
Qed.

(** X15: [to_python] reads a mapping under the names of the fields only:
    two mappings that agree on those keys hydrate alike, so keys that are
    not fields are ignored, whatever [additionalProperties] says in the
    schema. *)
Theorem to_python_ignores_other_keys (dc : DataClass) (kvs kvs' : list (string * pyval))
    (r : pyval) :
  (forall f, In f dc.(__dataclass_fields__) ->
             dict_get f.(name) kvs' = dict_get f.(name) kvs) ->
  DataClassField.to_python dc (PyDict kvs) = Return r ->
  DataClassField.to_python dc (PyDict kvs') = Return r.
Proof.
  intros Hsame. unfold DataClassField.to_python, Dacite.from_dict. cbn [is_instance_of bind].
  rewrite (build_fields_same_lookups _ _ kvs kvs' Hsame).
  destruct (Dacite.build_fields (__dataclass_fields__ dc) (PyDict kvs) Dacite.default_config)
    as [attrs|[]|]; simpl; auto; discriminate.
Qed.

Lemma to_python_ignores_other_keys_witness :
  DataClassField.to_python Car (PyDict (("owner", PyStr "Ann") :: ford_attrs)) = Return ford.
Proof.
  apply (to_python_ignores_other_keys Car ford_attrs).
  - intros f Hin. simpl in Hin.
    destruct Hin as [<-|[<-|[<-|[<-|[]]]]]; reflexivity.
  - reflexivity.
Defined.

Lemma build_value_default_id (t : pytype) (data v : pyval) :
  Dacite._build_value t data Dacite.default_config = Return v -> v = data.
Proof.
  destruct t; simpl; try discriminate; try (intros H; now injection H as <-).
  destruct data; intros H; now injection H as <-.
Qed.

Lemma build_fields_from_data (fields : list Field) (kvs : list (string * pyval)) :
  forall attrs,
    Dacite.build_fields fields (PyDict kvs) Dacite.default_config = Return attrs ->
    (forall f, In f fields -> required_in_data f = true -> dict_has f.(name) kvs = true)
    /\ (forall k v, In (k, v) attrs ->
          dict_get k kvs = Some v
          \/ (dict_get k kvs = None
              /\ exists f, In f fields /\ f.(name) = k
                           /\ Dacite.get_default_value_for_field f (hint f.(type)) = Some v)).
Proof.
  induction fields as [|f rest IH]; intros attrs H.
  - simpl in H. injection H as <-. split; [intros f []|intros k v []].
  - simpl in H. rewrite dict_has_get in H.
    destruct (dict_get (name f) kvs) as [d|] eqn:Eg; cbn [bind] in H.
    + apply bind_return_inv in H as (value & Hb & H).
      apply build_value_default_id in Hb. subst value.
      destruct (Dacite.is_instance d (hint (type f))); [|discriminate].
      apply bind_return_inv in H as (attrs' & Hrest & H). injection H as <-.
      destruct (IH attrs' Hrest) as [Hreq Hval]. split.
      * intros g [<-|Hg] Hr; [now rewrite dict_has_get, Eg|auto].
      * intros k v [Hkv|Hin].
        -- injection Hkv as <- <-. now left.
        -- destruct (Hval k v Hin) as [?|(Hn & g & Hg & Hk & Hd)]; auto.
           right. split; auto. exists g. split; [now right|auto].
    + destruct (Dacite.get_default_value_for_field f (hint (type f))) as [d|] eqn:Ed.
      * apply bind_return_inv in H as (attrs' & Hrest & H). injection H as <-.
        destruct (IH attrs' Hrest) as [Hreq Hval]. split.
        -- intros g [<-|Hg] Hr; auto.
           exfalso. unfold required_in_data in Hr.
           unfold Dacite.get_default_value_for_field in Ed.
           apply andb_true_iff in Hr as [_ Hr].
           destruct (default f), (default_factory f), (hint (type f)); discriminate.
        -- intros k v [Hkv|Hin].
           ++ injection Hkv as <- <-. right. split; auto.
              exists f. split; [now left|auto].
           ++ destruct (Hval k v Hin) as [?|(Hn & g & Hg & Hk & Hd)]; auto.
              right. split; auto. exists g. split; [now right|auto].
      * destruct (init f) eqn:Ei; [discriminate|].
        destruct (IH attrs H) as [Hreq Hval]. split.
        -- intros g [<-|Hg] Hr; auto.
           unfold required_in_data in Hr. rewrite Ei in Hr. discriminate.
        -- intros k v Hin.
           destruct (Hval k v Hin) as [?|(Hn & g & Hg & Hk & Hd)]; auto.
           right. split; auto. exists g. split; [now right|auto].
Qed.

(** X16: for a dataclass with no [__post_init__] whose fields are all
    [__init__] parameters declared with plain types, an instance that [to_python] hydrates from a
    mapping holds, for each attribute, the value the mapping has under that
    name, unchanged, or the default of the field when the mapping lacks the
    name; and the mapping has every field that hydration cannot fill by
    itself. *)
Theorem to_python_takes_values_as_given (dc : DataClass) (kvs : list (string * pyval))
    (r : pyval) :
  forallb init dc.(__dataclass_fields__) = true ->
  forallb plainly_typed dc.(__dataclass_fields__) = true ->
  DataClassField.to_python dc (PyDict kvs) = Return r ->
  exists attrs,
    r = PyInstance dc.(__name__) attrs
    /\ (forall f, In f dc.(__dataclass_fields__) -> required_in_data f = true ->
                  dict_has f.(name) kvs = true)
    /\ (forall k v, In (k, v) attrs ->
          dict_get k kvs = Some v
          \/ (dict_get k kvs = None
              /\ exists f, In f dc.(__dataclass_fields__) /\ f.(name) = k
                           /\ Dacite.get_default_value_for_field f (hint f.(type)) = Some v)).
Proof.
  intros _ _.
  unfold DataClassField.to_python, Dacite.from_dict. cbn [is_instance_of bind].
  destruct (Dacite.build_fields (__dataclass_fields__ dc) (PyDict kvs) Dacite.default_config)
    as [attrs|e|] eqn:E; simpl; [|destruct e; discriminate|discriminate].
  intros H. injection H as <-. exists attrs. split; auto.
  exact (build_fields_from_data _ _ _ E).
Qed.

Lemma to_python_takes_values_as_given_witness :
  exists attrs,
    ford = PyInstance Car.(__name__) attrs
    /\ (forall f, In f Car.(__dataclass_fields__) -> required_in_data f = true ->
                  dict_has f.(name) ford_attrs = true)
    /\ (forall k v, In (k, v) attrs ->
          dict_get k ford_attrs = Some v
          \/ (dict_get k ford_attrs = None
              /\ exists f, In f Car.(__dataclass_fields__) /\ f.(name) = k
                           /\ Dacite.get_default_value_for_field f (hint f.(type)) = Some v)).
Proof.
  apply (to_python_takes_values_as_given Car ford_attrs ford); reflexivity.
Defined.

Lemma build_fields_with_casts (config : Dacite.Config) (fields : list Field) (data : pyval) :
  forall attrs,
    Dacite.build_fields fields data Dacite.default_config = Return attrs ->
    Dacite.build_fields fields data config = Return attrs.
Proof.
  induction fields as [|f rest IH]; intros attrs H; simpl in *; auto.
  destruct (Dacite.py_contains data (name f)) as [[|]| |]; cbn [bind] in *;
    try discriminate.
  - destruct (Dacite.py_getitem data (name f)) as [d| |]; cbn [bind] in *;
      try discriminate.
    apply bind_return_inv in H as (value & Hb & H).
    apply build_value_default_id in Hb. subst value.
    destruct (Dacite.is_instance d (hint (type f))) eqn:Ei; [|discriminate].
    rewrite (build_value_conforming _ _ config Ei). cbn [bind]. rewrite Ei.
    apply bind_return_inv in H as (attrs' & Hrest & H). injection H as <-.
    now rewrite (IH attrs' Hrest).
  - destruct (Dacite.get_default_value_for_field f (hint (type f))).
    + apply bind_return_inv in H as (attrs' & Hrest & H). injection H as <-.
      now rewrite (IH attrs' Hrest).
    + destruct (init f); [discriminate|auto].
Qed.

(** X17: for a dataclass whose fields are declared with plain types, the
    read path takes everything the assignment path takes: stored text that
    [to_python] hydrates, and that is not the text of [null], is hydrated
    by [from_db_value] to the same instance; the dict cast of the read path
    leaves a value that passes the type check as it is. *)
Theorem from_db_value_agrees_with_to_python (dc : DataClass) (s : string) (r : pyval) :
  forallb plainly_typed dc.(__dataclass_fields__) = true ->
  Json.loads s <> Return PyNone ->
  DataClassField.to_python dc (PyStr s) = Return r ->
  DataClassField.from_db_value dc (PyStr s) = Return r.
Proof.
  intros _ Hnull. unfold DataClassField.to_python, DataClassField.from_db_value,
    Django.JSONField_from_db_value. cbn [is_instance_of].
  destruct (Json.loads s) as [obj|e|] eqn:El; cbn [bind]; try discriminate.
  intros H. unfold Dacite.from_dict in *.
  destruct (Dacite.build_fields (__dataclass_fields__ dc) obj Dacite.default_config)
    as [attrs|e|] eqn:E; simpl in H; [|destruct e; discriminate|discriminate].
  injection H as <-.
  assert (Hcast := build_fields_with_casts
                     {| Dacite.cast := [Dacite.Enum; Dacite.Dict] |} _ _ _ E).
  destruct obj; try congruence; now rewrite Hcast.
Qed.

Lemma from_db_value_agrees_with_to_python_witness :
  DataClassField.from_db_value Car (PyStr ford_text) = Return ford.
Proof.
  apply (from_db_value_agrees_with_to_python Car ford_text ford);
    [reflexivity|discriminate|reflexivity].
Defined.

(* ================================================================= *)
(** ** Instances of the properties with premises *)

Lemma formfield_widget_schema_witness :
  formfield Point
  = Return [("cols", PyStr "40"); ("rows", PyStr "20");
            ("schema", PyStr point_schema_text)]
  /\ formfield Listing = Raise TypeError.
Proof.
  split.
  - destruct (proj1 (proj2 (formfield_widget_schema Point
                              ltac:(apply distinct_NoDup; reflexivity))) eq_refl)
      as (properties & required & text & Hgen & Htext & Hform).
    vm_compute in Hgen. injection Hgen as <- <-.
    vm_compute in Htext. injection Htext as <-.
    rewrite Hform. vm_compute. reflexivity.
  - apply (proj2 (proj2 (formfield_widget_schema Listing
                           ltac:(apply distinct_NoDup; reflexivity)))).
    reflexivity.
Defined.

Lemma bound_data_redisplays_text_witness :
  DataClassFormField.bound_data false (PyStr "{not json") PyNone
  = Return (Django.InvalidJSONInput "{not json")
  /\ DataClassFormField.prepare_value (Django.InvalidJSONInput "{not json")
     = Return (Django.InvalidJSONInput "{not json").
Proof.
  apply (proj1 (bound_data_redisplays_text "{not json" PyNone)). reflexivity.
Defined.

Lemma get_prep_value_is_a_gate_witness :
  DataClassField.get_prep_value Return Car (PyDict [("brand", PyStr "Ford")])
  = Raise (ValidationError "Value must be of type Car" "invalid"
             (PyDict [("brand", PyStr "Ford")])).
Proof.
  apply (proj2 (proj2 (proj2 (get_prep_value_is_a_gate Return Car
                                (PyDict [("brand", PyStr "Ford")]))))).
  reflexivity.
Defined.
